(** * Post-tensioned floor-bay optimisation: the search engine of
    [convex/optimization.ts] and the stress script [analyze_stresses.js]

    A shallow embedding of the cost/feasibility search and of the
    properties its specification states about it.

    Numbers.  Inside the three searches a JavaScript [number] is
    modelled by an exact rational ([Q]): every arithmetic operation of
    the source is the corresponding operation of [Q], without rounding,
    and equality of numbers is [Qeq] ([==]).  [Math.sqrt] is not
    rational; the development is parametrised by a function
    [sqrt : Q -> Q] (a Section variable), and closed evaluations
    instantiate it with [Qsqrt], a lower approximation on a dyadic
    grid.  Special values ([NaN], [Infinity]) are represented for the
    entries of the comparison table ([jsnum]).

    The slab-cost interpolation block is also given over IEEE 754
    binary64 numbers, the numbers the code computes with (Module
    [Double], on the primitive floats): what the block does with
    [NaN], with infinite values and under rounding is stated there. *)

From Stdlib Require Import QArith Qround Qminmax Qabs Lqa Lia ZArith.
From Stdlib Require Import List Bool String Sorting.Permutation.
From Stdlib Require Import Floats.

Set Warnings "-inexact-float".

Import ListNotations.

Open Scope Q_scope.

(** ** JavaScript numeric primitives *)

Module JS.

(** [a < b] and [a <= b] on numbers, as booleans. *)
Definition ltb (a b : Q) : bool := negb (Qle_bool b a).
Definition leb (a b : Q) : bool := Qle_bool a b.
Definition gtb (a b : Q) : bool := ltb b a.
Definition geb (a b : Q) : bool := leb b a.

(** [Math.ceil], [Math.floor], [Math.pow] with an integer exponent. *)
Definition ceil (x : Q) : Q := inject_Z (Qceiling x).
Definition floor (x : Q) : Q := inject_Z (Qfloor x).
Definition pow (x : Q) (n : Z) : Q := Qpower x n.

(** [Math.max] and [Math.min] with three arguments. *)
Definition max3 (a b c : Q) : Q := Qmax (Qmax a b) c.
Definition min3 (a b c : Q) : Q := Qmin (Qmin a b) c.

(** A [for (let x = start; x <= stop; x += step)] loop visits
    [start], [start + step], ... while the value is at most [stop];
    [steps] is the accumulation [x += step], and the number of
    iterations is computed from the bounds (the step is positive
    everywhere in the source). *)
Fixpoint steps (n : nat) (x step : Q) : list Q :=
  match n with
  | O => []
  | S k => x :: steps k (Qred (x + step)) step
  end.

Definition forRange (start stop step : Q) : list Q :=
  if leb start stop
  then steps (S (Z.to_nat (Qfloor ((stop - start) / step)))) start step
  else [].

(** A lower approximation of the square root on the grid of
    multiples of [2^-40]; exact on the squares of grid points. *)
Definition Qsqrt (x : Q) : Q :=
  Z.sqrt (Qfloor (x * inject_Z (2 ^ 80))) # (2 ^ 40).



(** Runtime errors raised by the engine ([TypeError] on a property
    read of [undefined]). *)
Inductive error : Type :=
| TypeError (msg : string).

End JS.

Import JS.

(** ** analyze_stresses.js: the analysis script's fibre formulas *)

Module AnalyzeStresses.

(** [const f_top = -P/A - P*e/St + M/St;] *)
Definition f_top (P A e St M : Q) : Q := - P / A - P * e / St + M / St.

(** [const f_bot = -P/A + P*e/Sb - M/Sb;] *)
Definition f_bot (P A e Sb M : Q) : Q := - P / A + P * e / Sb - M / Sb.

End AnalyzeStresses.

(** ** optimization.ts: data model *)

(** One point [{ thickness, costPerSf }] of the slab cost table. *)
Record SlabCost : Type := mkSlabCost {
  thickness : Q;
  costPerSf : Q
}.

(** [CostParameters] (types.ts, schema.ts); [mildSteelCostPerLb],
    [concreteStrength] and [concreteCostPerCy] are [v.optional] in the
    schema: [None] is [undefined]. *)
Record CostParameters : Type := mkCostParameters {
  ptSlabCosts : list SlabCost;
  ptFormworkCostPerSf : Q;
  beamFormingCostPerCf : Q;
  beamPouringCostPerCf : Q;
  ptStrandCostPerLb : Q;
  mildSteelCostPerLb : option Q;
  concreteStrength_param : option Q;
  concreteCostPerCy : option Q
}.

(** The [checks] map of a design. *)
Record Checks : Type := mkChecks {
  moment : bool;
  deflection : bool;
  vibration : bool;
  punchingShear : bool;
  camber : bool
}.

Record MildSteelDetails : Type := mkMildSteelDetails {
  msd_governingCase : string;
  msd_ratio : Q;
  msd_weightPerSf : Q;
  msd_costPerSf : Q
}.

Record CostBreakdown : Type := mkCostBreakdown {
  concrete : Q;
  formwork : Q;
  beamForming : option Q;
  beamPouring : option Q;
  ptStrand : Q;
  mildSteel : Q
}.

(** The object literal assigned to [bestDesign]; a field that only some
    of the three searches write is optional. *)
Record DesignResult : Type := mkDesignResult {
  slabThickness : Q;
  beamWidth : option Q;
  beamDepth : option Q;
  concreteStrength : Q;
  ptForce : Q;
  beamPtForce : option Q;
  aspectRatio : option Q;
  mildSteelRatio : option Q;
  mildSteelDetails : option MildSteelDetails;
  totalCost : Q;
  costBreakdown : CostBreakdown;
  weightPerSf : Q;
  prestressForce : option Q;
  eccentricity : option Q;
  balanceRatio : option Q;
  numStrands : option Q;
  checks : Checks
}.

(** Every boolean of a [checks] map is [true]. *)
Definition all_checks_true (c : Checks) : Prop :=
  moment c = true /\ deflection c = true /\ vibration c = true /\
  punchingShear c = true /\ camber c = true.

(** ** optimization.ts: cost and material functions *)

(** [getConcreteBaseCost] *)
Definition getConcreteBaseCost (fc : Q) : Q :=
  let baseCost := 220 in
  if leb fc 5000 then baseCost
  else
    let strengthOver5000 := Qmin (fc - 5000) 7000 in
    let premiumTo12000 := (strengthOver5000 / 1000) * 15 in
    let premiumAbove12000 :=
      if gtb fc 12000 then ((fc - 12000) / 1000) * 26 else 0 in
    baseCost + premiumTo12000 + premiumAbove12000.

(** [getCoverRequirement] *)
Definition getCoverRequirement (fc : Q) : Q :=
  if geb fc 5000 then 1.5
  else if geb fc 4000 then 1.75
  else 2.0.

(** The object returned by [getSectionProperties]. *)
Module Props.
Record t : Type := mk { A : Q; I : Q; St : Q; Sb : Q; r2 : Q }.
End Props.

(** [getSectionProperties] *)
Definition getSectionProperties (thickness : Q) : Props.t :=
  let A := thickness * 12 in
  let I := (12 * pow thickness 3) / 12 in
  let St := I / (thickness / 2) in
  let Sb := St in
  let r2 := I / A in
  Props.mk A I St Sb r2.

(** [calculateTendonStress] *)
Definition calculateTendonStress (fpe fc Aps b d : Q) : Q :=
  let fpu := 270000 in
  let fpy := 0.9 * fpu in
  let rho_p := Aps / (b * d) in
  let stressTerm := Qmin (fc / (100 * rho_p)) 30000 in
  let fps := fpe + 10000 + stressTerm in
  min3 fps fpy (fpe + 60000).

(** [adjustSlabCostForStrength] *)
Definition adjustSlabCostForStrength (baseCost thickness fc : Q) : Q :=
  let volumePerSf := thickness / 12 / 27 in
  let baseConcreteCost := getConcreteBaseCost 5000 in
  let actualConcreteCost := getConcreteBaseCost fc in
  let costDifference := actualConcreteCost - baseConcreteCost in
  baseCost + (volumePerSf * costDifference).

(** The prestress-loss tier
    [fc <= 5000 ? 0.80 : fc <= 7000 ? 0.82 : fc <= 10000 ? 0.84 : 0.85]. *)
Definition lossRatio (fc : Q) : Q :=
  if leb fc 5000 then 0.80
  else if leb fc 7000 then 0.82
  else if leb fc 10000 then 0.84
  else 0.85.

(** The fibre stresses of the three searches: the expressions
    [-P/A + P*e/St - M/St] (top) and [-P/A - P*e/Sb + M/Sb] (bottom)
    that every stress check of optimization.ts evaluates. *)
Definition fiber_top (P A e St M : Q) : Q := - P / A + P * e / St - M / St.
Definition fiber_bot (P A e Sb M : Q) : Q := - P / A - P * e / Sb + M / Sb.

(** The object returned by [getStressLimits]. *)
Module Limits.
Record t : Type := mk {
  fci_comp : Q;
  fci_tens : Q;
  fc_comp_sust : Q;
  fc_comp_total : Q;
  fc_tens : Q
}.
End Limits.

(** The object returned by [calculateTotalMildSteel]. *)
Module Steel.
Record t : Type := mk {
  tempShrinkage : Q;
  bonded : Q;
  twoWay : Q;
  governing : Q;
  governingCase : string
}.
End Steel.

(** ** The slab cost table *)

(** [costParams.ptSlabCosts.sort((a, b) => a.thickness - b.thickness)]:
    the array is sorted in place, stably, by ascending thickness, and
    the sorted array itself is the value of the call. *)
Fixpoint insertByThickness (x : SlabCost) (l : list SlabCost) : list SlabCost :=
  match l with
  | [] => [x]
  | y :: l' =>
      if leb (thickness x) (thickness y) then x :: y :: l'
      else y :: insertByThickness x l'
  end.

Definition sortByThickness (l : list SlabCost) : list SlabCost :=
  fold_right insertByThickness [] l.

(** The loop
    [for (let i = 0; i < sortedCosts.length - 1; i++)
       if (thickness >= sortedCosts[i].thickness &&
           thickness <= sortedCosts[i + 1].thickness) { baseCost = ...; break; }]:
    the interpolated cost in the first bracketing pair, when there is
    one. *)
Fixpoint bracketCost (t : Q) (sortedCosts : list SlabCost) : option Q :=
  match sortedCosts with
  | p1 :: ((p2 :: _) as rest) =>
      if geb t (thickness p1) && leb t (thickness p2) then
        let t1 := thickness p1 in
        let t2 := thickness p2 in
        let c1 := costPerSf p1 in
        let c2 := costPerSf p2 in
        Some (c1 + (c2 - c1) * (t - t1) / (t2 - t1))
      else bracketCost t rest
  | _ => None
  end.

(** "Find base slab cost by interpolation": the block that the three
    searches repeat, with their default [baseCost] (20, 15 and 12).
    Reading [sortedCosts[0].thickness] of an empty array raises a
    [TypeError]. *)
Definition slabBaseCost (default t : Q) (sortedCosts : list SlabCost)
  : error + Q :=
  let baseCost :=
    match bracketCost t sortedCosts with
    | Some c => c
    | None => default
    end in
  match sortedCosts with
  | [] => inl (TypeError "Cannot read properties of undefined (reading 'thickness')")
  | first :: _ =>
      let final := last sortedCosts first in
      if leb t (thickness first) then inr (costPerSf first)
      else if geb t (thickness final) then inr (costPerSf final)
      else inr baseCost
  end.

(** [costParams.mildSteelCostPerLb || 1.20]: the right operand is taken
    when the left one is falsy ([undefined] or [0]). *)
Definition mildSteelCostOrDefault (c : option Q) : Q :=
  match c with
  | Some x => if Qeq_bool x 0 then 1.20 else x
  | None => 1.20
  end.
(** ** The slab cost table in double precision *)

(** The interpolation block again, over the numbers JavaScript
    computes with: IEEE 754 binary64, with [NaN], the infinities and
    rounding to nearest after every operation.  [SlabCost] is a point
    whose two fields are such numbers, [sortedCosts] is the array the
    in-place sort returns, and [a >= b] is [b <= a] (both are false
    when an operand is [NaN]). *)
Module Double.
Local Open Scope float_scope.

Record SlabCost : Type := mkSlabCost {
  thickness : float;
  costPerSf : float
}.

(** The loop over the pairs of consecutive points, up to its [break]. *)
Fixpoint bracketCost (t : float) (sortedCosts : list SlabCost) : option float :=
  match sortedCosts with
  | p1 :: ((p2 :: _) as rest) =>
      if (thickness p1 <=? t) && (t <=? thickness p2) then
        let t1 := thickness p1 in
        let t2 := thickness p2 in
        let c1 := costPerSf p1 in
        let c2 := costPerSf p2 in
        Some (c1 + (c2 - c1) * (t - t1) / (t2 - t1))
      else bracketCost t rest
  | _ => None
  end.

(** "Find base slab cost by interpolation", with the default
    [baseCost] of the search (20, 15 or 12). *)
Definition slabBaseCost (default t : float) (sortedCosts : list SlabCost)
  : error + float :=
  let baseCost :=
    match bracketCost t sortedCosts with
    | Some c => c
    | None => default
    end in
  match sortedCosts with
  | [] => inl (TypeError "Cannot read properties of undefined (reading 'thickness')")
  | first :: _ =>
      let final := last sortedCosts first in
      if t <=? thickness first then inr (costPerSf first)
      else if thickness final <=? t then inr (costPerSf final)
      else inr baseCost
  end.

(** The linear interpolation between two points, as the loop body
    evaluates it. *)
Definition interpolate (p1 p2 : SlabCost) (t : float) : float :=
  costPerSf p1
  + (costPerSf p2 - costPerSf p1) * (t - thickness p1)
    / (thickness p2 - thickness p1).

(** Thicknesses in non-decreasing order along the table: the order
    the sort leaves a table without [NaN] in. *)
Fixpoint orderedThickness (l : list SlabCost) : bool :=
  match l with
  | p1 :: ((p2 :: _) as rest) =>
      (thickness p1 <=? thickness p2) && orderedThickness rest
  | _ => true
  end.

(** Every number of the table is finite and not negative. *)
Definition finiteNonnegative (l : list SlabCost) : bool :=
  forallb (fun p => is_finite (thickness p) && (0 <=? thickness p)
                    && is_finite (costPerSf p) && (0 <=? costPerSf p)) l.

(** The default table of the cost form (CostForm.tsx). *)
Definition formTable : list SlabCost :=
  [mkSlabCost 3 10.50; mkSlabCost 4 11.00; mkSlabCost 5 11.50;
   mkSlabCost 6 12.50; mkSlabCost 7 13.00; mkSlabCost 8 14.00;
   mkSlabCost 9 15.50; mkSlabCost 10 17.00; mkSlabCost 11 18.80;
   mkSlabCost 12 22.50].

End Double.

(** ** The outcome of one grid point *)

(** The [debugCounts] counter a rejected flat-plate candidate
    increments ([NoCounter]: the [continue] that counts nothing). *)
Inductive Rejection : Type :=
| StressTransferFailed
| StressServiceFailed
| MinPrestressFailed
| TensionControlFailed
| MomentCapacityFailed
| DeflectionFailed
| VibrationFailed
| PunchingShearFailed
| NoCounter.

(** A grid point is rejected by a [continue] before the cost block,
    or reaches the cost block, which sorts the cost table and then
    either raises or yields a costed candidate. *)
Inductive PointResult : Type :=
| Rejected (why : Rejection)
| Threw (e : error)
| Costed (d : DesignResult).

(** The mutable state of a search: [bestDesign], [minCost] ([None] is
    [Infinity]), the contents of the caller's [ptSlabCosts] array, and
    the exception that ended the search, if any. *)
Record SearchState : Type := mkSearchState {
  bestDesign : option DesignResult;
  minCost : option Q;
  slabCostsArray : list SlabCost;
  thrown : option error
}.

Definition initialState (costParams : CostParameters) : SearchState :=
  mkSearchState None None (ptSlabCosts costParams) None.

(** [if (totalCost < minCost) { minCost = totalCost; bestDesign = {...} }] *)
Definition retain (s : SearchState) (d : DesignResult) : SearchState :=
  let better :=
    match minCost s with
    | None => true
    | Some m => ltb (totalCost d) m
    end in
  if better
  then mkSearchState (Some d) (Some (totalCost d))
         (sortByThickness (slabCostsArray s)) None
  else mkSearchState (bestDesign s) (minCost s)
         (sortByThickness (slabCostsArray s)) None.

(** One iteration of the innermost loop body, given the outcome of the
    grid point evaluated on the current array. *)
Definition step (s : SearchState) (r : PointResult) : SearchState :=
  match r with
  | Rejected _ => s
  | Threw e =>
      mkSearchState (bestDesign s) (minCost s)
        (sortByThickness (slabCostsArray s)) (Some e)
  | Costed d => retain s d
  end.

(** Running a loop body over the values of its loop variable; nothing
    runs after an exception. *)
Definition forEach {X : Type} (l : list X)
  (body : X -> SearchState -> SearchState) (s : SearchState) : SearchState :=
  fold_left (fun acc x => match thrown acc with
                          | Some _ => acc
                          | None => body x acc
                          end) l s.

(** What the caller of a search observes: the array it passed, and the
    returned design, [null], or the exception. *)
Definition searchResult (s : SearchState) : error + option DesignResult :=
  match thrown s with
  | Some e => inl e
  | None => inr (bestDesign s)
  end.

(** The first value of a loop variable for which the body sets its
    "found" flag and breaks. *)
Fixpoint firstFound {X Y : Type} (f : X -> option Y) (l : list X) : option Y :=
  match l with
  | [] => None
  | x :: l' => match f x with
               | Some y => Some y
               | None => firstFound f l'
               end
  end.

Section Material.

(** [Math.sqrt]. *)
Variable sqrt : Q -> Q.

(** [getConcreteModulus] *)
Definition getConcreteModulus (fc : Q) : Q := 57000 * sqrt fc.

(** [getStressLimits] *)
Definition getStressLimits (fc fci : Q) : Limits.t :=
  Limits.mk (0.60 * fci) (3 * sqrt fci) (0.45 * fc) (0.60 * fc) (6 * sqrt fc).

(** [calculateTotalMildSteel] *)
Definition calculateTotalMildSteel (thickness span fc fy serviceStress Mcr d : Q)
  : Steel.t :=
  let minRatio := 0.0018 in
  let tempShrinkage := minRatio * thickness * 12 in
  let bonded := Mcr / (1.2 * fy * d) in
  let l2 := span * 12 in
  let As_neg := 0.00075 * thickness * l2 in
  let additionalAs :=
    if gtb serviceStress (2 * sqrt fc) then
      let Nc := serviceStress * thickness * 12 in
      Nc / (0.5 * fy)
    else 0 in
  let twoWay := Qmax (As_neg + additionalAs) tempShrinkage in
  let governing := max3 tempShrinkage bonded twoWay in
  let governingCase :=
    if gtb bonded tempShrinkage && gtb bonded twoWay
    then "minimum bonded (ACI 8.6.1)"%string
    else if gtb twoWay tempShrinkage && gtb twoWay bonded
    then "two-way PT slab (ACI 24.4.3)"%string
    else "temperature/shrinkage"%string in
  Steel.mk tempShrinkage bonded twoWay governing governingCase.

End Material.

(** The [checks] literal of every [bestDesign]. *)
Definition checksLiteral : Checks := mkChecks true true true true true.

(** [const concreteStrengths = [5000, 7000, 10000, 12000, 15000]] with
    the two [continue]s that skip the highest strengths on short spans. *)
Definition concreteStrengths : list Q := [5000; 7000; 10000; 12000; 15000].

Definition strengthSkipped (bayLength fc : Q) : bool :=
  (gtb fc 10000 && ltb bayLength 30) || (gtb fc 12000 && ltb bayLength 40).

(** ** optimizeFlatPlate *)

Module FlatPlate.
Section Search.

Variable sqrt : Q -> Q.
Variables bayLength bayWidth : Q.
Variable costParams : CostParameters.

(** The body of [for (const fc of concreteStrengths)]. *)
Section Strength.
Variable fc : Q.

Definition fci : Q := 0.7 * fc.
Definition Ec : Q := getConcreteModulus sqrt fc.
Definition limits : Limits.t := getStressLimits sqrt fc fci.
Definition minThickness : Q := Qmax 5 (ceil ((bayLength * 12) / 50)).

(** The body of [for (let thickness = minThickness; thickness <= 16; ...)]. *)
Section Thickness.
Variable thickness : Q.

Definition props : Props.t := getSectionProperties thickness.
Definition dead : Q := 12.5 * thickness.
Definition live : Q := 40.
Definition Md : Q := dead * bayLength * bayLength * 12 / 10.
Definition Ml : Q := live * bayLength * bayLength * 12 / 10.
Definition Mt : Q := Md + Ml.
Definition Mt_service : Q := Md + 0.3 * Ml.
Definition cover : Q := getCoverRequirement fc.
Definition strandDiameter : Q := 0.5.
Definition emax : Q := thickness / 2 - cover - strandDiameter / 2.

(** The bodies of the [balanceRatio] and [eRatio] loops. *)
Section Point.
Variables balanceRatio eRatio : Q.

Definition M_balance : Q := balanceRatio * Md.
Definition e : Q := eRatio * emax.
Definition P_balance : Q := M_balance / e.
Definition Pi : Q := P_balance / lossRatio fc.
Definition Pe : Q := P_balance.

Definition fti_top : Q := fiber_top Pi (Props.A props) e (Props.St props) Md.
Definition fti_bot : Q := fiber_bot Pi (Props.A props) e (Props.Sb props) Md.
Definition fs_top : Q :=
  fiber_top Pe (Props.A props) e (Props.St props) Mt_service.
Definition fs_bot : Q :=
  fiber_bot Pe (Props.A props) e (Props.Sb props) Mt_service.

Definition avgPrestress : Q := Pe / Props.A props.

Definition d : Q := thickness - 1.5.
Definition fpe : Q := 0.74 * 270000 * lossRatio fc.
Definition Aps : Q := Pe / fpe.
Definition b : Q := 12.
Definition fps : Q := calculateTendonStress fpe fc Aps b d.

Definition beta1 : Q :=
  if leb fc 4000 then 0.85
  else Qmax 0.65 (0.85 - 0.05 * (fc - 4000) / 1000).
Definition a : Q := (Aps * fps) / (0.85 * fc * 12).
Definition c : Q := a / beta1.
Definition epsilon_t : Q := 0.003 * (d - c) / c.

(** [let phi; if (epsilon_t >= 0.005) ... else if (epsilon_t >= 0.002)
    ... else { ...; continue; }]: [None] is the [continue]. *)
Definition phi : option Q :=
  if geb epsilon_t 0.005 then Some 0.9
  else if geb epsilon_t 0.002
  then Some (0.65 + (epsilon_t - 0.002) * (0.9 - 0.65) / (0.005 - 0.002))
  else None.

Definition Mn : Q := Aps * fps * (d - a / 2).

Definition w_live : Q := live / 1000.
Definition L : Q := bayLength.
Definition fr : Q := 7.5 * sqrt fc.
Definition yt : Q := thickness / 2.
Definition Mcr : Q := (fr * Props.I props) / yt.
Definition M_service : Q := (live * L * L / 10) * 12.
Definition Ie : Q :=
  if leb M_service ((2 / 3) * Mcr) then Props.I props
  else
    let Icr := 0.35 * Props.I props in
    Icr + pow (Mcr / M_service) 3 * (Props.I props - Icr).
Definition delta_L : Q := (5 * w_live * pow (L * 12) 4) / (384 * Ec * Ie / 1000).
Definition camber : Q := (Pe * e * pow (L * 12) 2) / (8 * Ec * Ie / 1000).
Definition netDeflection : Q := delta_L - 0.8 * camber.
Definition deflectionLimit : Q := (L * 12) / 480.
Definition frequency : Q := 0.18 * sqrt (386.4 / delta_L).

Definition bo : Q := 4 * (d + 4.5).
Definition lambda_s : Q := Qmin (sqrt (2 / (1 + 0.004 * d))) 1.0.
Definition beta : Q := 1.0.
Definition alpha_s : Q := 40.
Definition vc1 : Q := (2 + 4 / beta) * lambda_s * sqrt fc.
Definition vc2 : Q := (alpha_s * d / bo + 2) * lambda_s * sqrt fc.
Definition vc3 : Q := 4 * lambda_s * sqrt fc.
Definition vcNominal : Q := min3 vc1 vc2 vc3 + 0.3 * avgPrestress.
Definition phiShear : Q := 0.75.
Definition vcDesign : Q := phiShear * vcNominal.
Definition vu : Q := 3000 / (bo * d).

(** The cost block, once [baseCost] has been found in the table. *)
Section Cost.
Variable baseCost : Q.

Definition area : Q := bayLength * bayWidth.
Definition slabCost : Q := adjustSlabCostForStrength baseCost thickness fc.
Definition fy : Q := 60000.
Definition fr_rebar : Q := 7.5 * sqrt fc.
Definition Mcr_rebar : Q := (fr_rebar * Props.I props) / (thickness / 2).
Definition maxTensileStress : Q := Qmax fs_bot 0.
Definition steel : Steel.t :=
  calculateTotalMildSteel sqrt thickness bayLength fc fy maxTensileStress
    Mcr_rebar d.
Definition barsPerFoot : Q := Steel.governing steel / 0.20.
Definition rebarWeightPerFt : Q := barsPerFoot * 0.668.
Definition rebarWeightPerSf : Q := rebarWeightPerFt / 1.
Definition totalPtForce : Q := Pe * bayWidth.
Definition strandArea : Q := 0.153.
Definition forcePerStrand : Q := fpe * strandArea.
Definition numStrands : Q := ceil (totalPtForce / forcePerStrand).
Definition drapeHeight : Q := 2 * e / 12.
Definition strandLength : Q :=
  sqrt (bayLength * bayLength + drapeHeight * drapeHeight) * 1.02.
Definition strandWeight : Q := numStrands * 0.52 * strandLength.
Definition concreteCost : Q := area * slabCost.
Definition formworkCost : Q := area * ptFormworkCostPerSf costParams.
Definition ptCost : Q := strandWeight * ptStrandCostPerLb costParams.
Definition rebarCostPerSf : Q :=
  rebarWeightPerSf * mildSteelCostOrDefault (mildSteelCostPerLb costParams).
Definition totalCost : Q :=
  concreteCost + formworkCost + ptCost + area * rebarCostPerSf.

(** The object literal assigned to [bestDesign]. *)
Definition design : DesignResult :=
  mkDesignResult
    (* slabThickness *) thickness
    (* beamWidth *) None
    (* beamDepth *) None
    (* concreteStrength *) fc
    (* ptForce *) avgPrestress
    (* beamPtForce *) None
    (* aspectRatio *) None
    (* mildSteelRatio *) (Some (Steel.governing steel / (12 * d)))
    (* mildSteelDetails *)
    (Some (mkMildSteelDetails (Steel.governingCase steel)
             (Steel.governing steel / (12 * d))
             rebarWeightPerSf rebarCostPerSf))
    (* totalCost *) totalCost
    (* costBreakdown *)
    (mkCostBreakdown (area * slabCost)
       (area * ptFormworkCostPerSf costParams)
       None None
       (strandWeight * ptStrandCostPerLb costParams)
       (area * rebarCostPerSf))
    (* weightPerSf *) ((thickness / 12) * 150 + rebarWeightPerSf)
    (* prestressForce *) (Some Pe)
    (* eccentricity *) (Some e)
    (* balanceRatio *) (Some balanceRatio)
    (* numStrands *) (Some numStrands)
    (* checks *) checksLiteral.

End Cost.

(** The eight stress tests at transfer and at service, in the order of
    the source: the counter of the first [continue] taken, or [None]
    when the candidate passes them all. *)
Definition stressScreening : option Rejection :=
  if ltb fti_top (- Limits.fci_comp limits) then Some StressTransferFailed
  else if gtb fti_top (Limits.fci_tens limits) then Some StressTransferFailed
  else if ltb fti_bot (- Limits.fci_comp limits) then Some StressTransferFailed
  else if gtb fti_bot (Limits.fci_tens limits) then Some StressTransferFailed
  else if ltb fs_top (- Limits.fc_comp_total limits) then Some StressServiceFailed
  else if gtb fs_top (Limits.fc_tens limits) then Some StressServiceFailed
  else if ltb fs_bot (- Limits.fc_comp_total limits) then Some StressServiceFailed
  else if gtb fs_bot (Limits.fc_tens limits) then Some StressServiceFailed
  else None.

(** The checks of one grid point, in the order of the source; every
    [continue] is a [Rejected].  [sortedCosts] is the cost table after
    the in-place sort of the cost block. *)
Definition point (sortedCosts : list SlabCost) : PointResult :=
  match stressScreening with
  | Some why => Rejected why
  | None =>
      if ltb avgPrestress 175 then Rejected MinPrestressFailed
      else
        match phi with
        | None => Rejected TensionControlFailed
        | Some phi =>
            let phiMn := phi * Mn in
            if gtb Mt phiMn then Rejected MomentCapacityFailed
            else if gtb netDeflection deflectionLimit then Rejected DeflectionFailed
            else if ltb frequency 5.0 then Rejected VibrationFailed
            else if gtb vu vcDesign then Rejected PunchingShearFailed
            else if ltb avgPrestress 175 then Rejected NoCounter
            else
              match slabBaseCost 20 thickness sortedCosts with
              | inl err => Threw err
              | inr baseCost => Costed (design baseCost)
              end
        end
  end.

End Point.

Definition balanceRatios : list Q := forRange 0.6 1.1 0.05.
Definition eRatios : list Q := forRange 0.6 0.95 0.05.

(** The thickness loop body: skipped when [emax < 1.0]. *)
Definition thicknessBody (s : SearchState) : SearchState :=
  if ltb emax 1.0 then s
  else
    forEach balanceRatios (fun balanceRatio =>
      forEach eRatios (fun eRatio s' =>
        step s' (point balanceRatio eRatio
                   (sortByThickness (slabCostsArray s'))))) s.

End Thickness.

Definition thicknesses : list Q := forRange minThickness 16 0.5.

Definition strengthBody (s : SearchState) : SearchState :=
  if strengthSkipped bayLength fc then s
  else forEach thicknesses thicknessBody s.

End Strength.

(** The state in which [optimizeFlatPlate] returns or raises. *)
Definition run : SearchState :=
  forEach concreteStrengths strengthBody (initialState costParams).

End Search.
End FlatPlate.

(** [optimizeFlatPlate(bayLength, bayWidth, costParams)]: the value
    returned (or the exception), and the caller's cost table
    afterwards. *)
Definition optimizeFlatPlate (sqrt : Q -> Q) (bayLength bayWidth : Q)
  (costParams : CostParameters) : error + option DesignResult :=
  searchResult (FlatPlate.run sqrt bayLength bayWidth costParams).

Definition optimizeFlatPlate_array (sqrt : Q -> Q) (bayLength bayWidth : Q)
  (costParams : CostParameters) : list SlabCost :=
  slabCostsArray (FlatPlate.run sqrt bayLength bayWidth costParams).

(** ** Beam systems: shared pieces *)

(** [slabPrestress = { Pe, e, avgPrestress, balanceRatio }] *)
Module SlabPrestress.
Record t : Type := mk { Pe : Q; e : Q; avgPrestress : Q; balanceRatio : Q }.
End SlabPrestress.

(** [beamPrestress = { Pe, e }] *)
Module BeamPrestress.
Record t : Type := mk { Pe : Q; e : Q }.
End BeamPrestress.

(** The four combined stress tests of a slab or beam trial in the beam
    searches: [true] when none of the four [continue]s is taken. *)
Definition stressesPass (limits : Limits.t) (fti_top fti_bot fs_top fs_bot : Q)
  : bool :=
  negb (ltb fti_top (- Limits.fci_comp limits) || gtb fti_top (Limits.fci_tens limits))
  && negb (ltb fti_bot (- Limits.fci_comp limits) || gtb fti_bot (Limits.fci_tens limits))
  && negb (ltb fs_top (- Limits.fc_comp_total limits) || gtb fs_top (Limits.fc_tens limits))
  && negb (ltb fs_bot (- Limits.fc_comp_total limits) || gtb fs_bot (Limits.fc_tens limits)).

(** The body of a slab prestress trial (inner [eRatio] loop of the slab
    search): the prestress recorded when the trial sets
    [slabDesignFound]. *)
Definition slabTrial (limits : Limits.t) (fc A St Sb Md Mservice emax : Q)
  (balanceRatio eRatio : Q) : option SlabPrestress.t :=
  let M_balance := balanceRatio * Md in
  let e := eRatio * emax in
  let P_balance := M_balance / e in
  let Pi := P_balance / lossRatio fc in
  let Pe := P_balance in
  let fti_top := fiber_top Pi A e St Md in
  let fti_bot := fiber_bot Pi A e Sb Md in
  let fs_top := fiber_top Pe A e St Mservice in
  let fs_bot := fiber_bot Pe A e Sb Mservice in
  if stressesPass limits fti_top fti_bot fs_top fs_bot then
    let avgPrestress := Pe / A in
    if ltb avgPrestress 175 then None
    else Some (SlabPrestress.mk Pe e avgPrestress balanceRatio)
  else None.

(** The body of a beam prestress trial. *)
Definition beamTrial (limits : Limits.t) (fc A St Sb Md Mservice emax : Q)
  (balanceRatio eRatio : Q) : option BeamPrestress.t :=
  let M_balance := balanceRatio * Md in
  let e := eRatio * emax in
  let P_balance := M_balance / e in
  let Pi := P_balance / lossRatio fc in
  let Pe := P_balance in
  let fti_top := fiber_top Pi A e St Md in
  let fti_bot := fiber_bot Pi A e Sb Md in
  let fs_top := fiber_top Pe A e St Mservice in
  let fs_bot := fiber_bot Pe A e Sb Mservice in
  if stressesPass limits fti_top fti_bot fs_top fs_bot
  then Some (BeamPrestress.mk Pe e)
  else None.

(** Two nested loops that [break] at the first trial that succeeds. *)
Definition searchPrestress {Y : Type} (trial : Q -> Q -> option Y)
  (balanceRatios eRatios : list Q) : option Y :=
  firstFound (fun balanceRatio =>
    firstFound (fun eRatio => trial balanceRatio eRatio) eRatios)
    balanceRatios.

(** ** optimizeOneWayBeam *)

Module OneWayBeam.
Section Search.

Variable sqrt : Q -> Q.
Variables bayLength bayWidth : Q.
Variable costParams : CostParameters.

Section Strength.
Variable fc : Q.

Definition fci : Q := 0.7 * fc.
Definition Ec : Q := getConcreteModulus sqrt fc.
Definition limits : Limits.t := getStressLimits sqrt fc fci.
Definition minBeamDepth : Q := Qmax 12 (floor (bayLength * 12 / 20)).
Definition maxBeamDepth : Q := Qmin 48 (ceil (bayLength * 12 / 12)).

Section Depth.
Variable beamDepth : Q.

Section Width.
Variable beamWidth : Q.

Definition clearSpan : Q := bayWidth - beamWidth / 12.
Definition minSlabThickness : Q := Qmax 4 (ceil ((clearSpan * 12) / 180)).

Section Slab.
Variable slabThickness : Q.

Definition slabProps : Props.t := getSectionProperties slabThickness.
Definition slabDead : Q := 12.5 * slabThickness.
Definition slabLive : Q := 40.
Definition Md_slab : Q := slabDead * clearSpan * clearSpan * 12 / 10.
Definition Ml_slab : Q := slabLive * clearSpan * clearSpan * 12 / 10.
Definition Mt_slab : Q := Md_slab + Ml_slab.
Definition Mt_slab_service : Q := Md_slab + 0.3 * Ml_slab.
Definition slabCover : Q := getCoverRequirement fc.
Definition strandDiameter : Q := 0.375.
Definition emax_slab : Q := slabThickness / 2 - slabCover - strandDiameter / 2.

Definition findSlabPrestress : option SlabPrestress.t :=
  searchPrestress
    (slabTrial limits fc (Props.A slabProps) (Props.St slabProps)
       (Props.Sb slabProps) Md_slab Mt_slab_service emax_slab)
    (forRange 0.6 1.1 0.1) (forRange 0.6 0.95 0.05).

Definition totalDepth : Q := beamDepth + slabThickness.
Definition beamWeight : Q := (beamWidth * totalDepth / 144) * 150.
Definition beamSlabDead : Q := slabDead * bayWidth.
Definition beamSlabLive : Q := slabLive * bayWidth.
Definition totalDead : Q := beamSlabDead + beamWeight.
Definition totalLive : Q := beamSlabLive.
Definition Md_beam : Q := totalDead * bayLength * bayLength * 12 / 10.
Definition Ml_beam : Q := totalLive * bayLength * bayLength * 12 / 10.
Definition Mt_beam : Q := Md_beam + Ml_beam.
Definition Mt_beam_service : Q := Md_beam + 0.3 * Ml_beam.
Definition beamA : Q := beamWidth * totalDepth.
Definition beamI : Q := (beamWidth * pow totalDepth 3) / 12.
Definition beamSt : Q := beamI / (totalDepth / 2).
Definition beamSb : Q := beamSt.
Definition beamCover : Q := getCoverRequirement fc + 0.5.
Definition emax_beam : Q := totalDepth / 2 - beamCover - 1.0.

Definition findBeamPrestress : option BeamPrestress.t :=
  searchPrestress
    (beamTrial limits fc beamA beamSt beamSb Md_beam Mt_beam_service emax_beam)
    (forRange 0.7 1.1 0.1) (forRange 0.7 0.95 0.05).

Section Prestressed.
Variable slabPrestress : SlabPrestress.t.
Variable beamPrestress : BeamPrestress.t.

Definition w_live : Q := slabLive / 1000.
Definition L : Q := clearSpan.
Definition fr : Q := 7.5 * sqrt fc.
Definition yt : Q := slabThickness / 2.
Definition Mcr : Q := (fr * Props.I slabProps) / yt.
Definition M_service : Q := (slabLive * L * L / 10) * 12.
Definition Ie : Q :=
  if leb M_service ((2 / 3) * Mcr) then Props.I slabProps
  else
    let Icr := 0.35 * Props.I slabProps in
    Icr + pow (Mcr / M_service) 3 * (Props.I slabProps - Icr).
Definition delta_L : Q := (5 * w_live * pow (L * 12) 4) / (384 * Ec * Ie / 1000).
Definition camber : Q :=
  (SlabPrestress.Pe slabPrestress * SlabPrestress.e slabPrestress
   * pow (L * 12) 2) / (8 * Ec * Ie / 1000).
Definition netDeflection : Q := delta_L - 0.8 * camber.
Definition deflectionLimit : Q := (L * 12) / 480.
Definition frequency : Q := 0.18 * sqrt (386.4 / delta_L).

Definition slabArea : Q := bayLength * bayWidth.
Definition beamVolume : Q := (bayLength * beamWidth * totalDepth) / 1728.

Section Cost.
Variable baseCost : Q.

Definition slabCost : Q := adjustSlabCostForStrength baseCost slabThickness fc.
Definition fy : Q := 60000.
Definition d_slab : Q := slabThickness - 1.5.
Definition fs_bot_slab : Q :=
  - SlabPrestress.Pe slabPrestress / Props.A slabProps
  - SlabPrestress.Pe slabPrestress * SlabPrestress.e slabPrestress
    / Props.Sb slabProps
  + Mt_slab / Props.Sb slabProps.
Definition maxTensileStress : Q := Qmax fs_bot_slab 0.
Definition slabSteel : Steel.t :=
  calculateTotalMildSteel sqrt slabThickness clearSpan fc fy maxTensileStress
    Mcr d_slab.
Definition slabPtForce : Q := SlabPrestress.Pe slabPrestress * bayLength.
Definition beamPtForce : Q := BeamPrestress.Pe beamPrestress.
Definition fpe : Q := 0.74 * 270000 * 0.82.
Definition strandArea : Q := 0.153.
Definition forcePerStrand : Q := fpe * strandArea.
Definition slabStrands : Q := ceil (slabPtForce / forcePerStrand).
Definition beamStrands : Q := ceil (beamPtForce / forcePerStrand).
Definition slabStrandLength : Q :=
  sqrt (clearSpan * clearSpan
        + pow (2 * SlabPrestress.e slabPrestress / 12) 2) * 1.02.
Definition beamStrandLength : Q :=
  sqrt (bayLength * bayLength
        + pow (2 * BeamPrestress.e beamPrestress / 12) 2) * 1.02.
Definition slabStrandWeight : Q :=
  slabStrands * 0.52 * slabStrandLength * (bayLength / clearSpan).
Definition beamStrandWeight : Q := beamStrands * 0.52 * beamStrandLength.
Definition totalStrandWeight : Q := slabStrandWeight + beamStrandWeight.
Definition slabRebarWeight : Q :=
  Steel.governing slabSteel * 0.668 / 0.20 * slabArea.
Definition beamRebarArea : Q := 0.0018 * beamA / 144.
Definition beamRebarWeight : Q := beamRebarArea * 490 * beamVolume.
Definition totalRebarWeight : Q := slabRebarWeight + beamRebarWeight.
Definition concreteCost : Q := slabArea * slabCost.
Definition formworkCost : Q := slabArea * ptFormworkCostPerSf costParams.
Definition beamFormCost : Q := beamVolume * beamFormingCostPerCf costParams.
Definition beamPourCost : Q := beamVolume * beamPouringCostPerCf costParams.
Definition ptCost : Q := totalStrandWeight * ptStrandCostPerLb costParams.
Definition rebarCost : Q :=
  totalRebarWeight * mildSteelCostOrDefault (mildSteelCostPerLb costParams).
Definition totalCost : Q :=
  concreteCost + formworkCost + beamFormCost + beamPourCost + ptCost + rebarCost.

Definition design : DesignResult :=
  mkDesignResult
    (* slabThickness *) slabThickness
    (* beamWidth *) (Some beamWidth)
    (* beamDepth *) (Some totalDepth)
    (* concreteStrength *) fc
    (* ptForce *) (SlabPrestress.avgPrestress slabPrestress)
    (* beamPtForce *) (Some (BeamPrestress.Pe beamPrestress / beamA))
    (* aspectRatio *) None
    (* mildSteelRatio *) None
    (* mildSteelDetails *) None
    (* totalCost *) totalCost
    (* costBreakdown *)
    (mkCostBreakdown concreteCost formworkCost (Some beamFormCost)
       (Some beamPourCost) ptCost rebarCost)
    (* weightPerSf *)
    ((slabThickness / 12) * 150 + (beamVolume * 150) / slabArea
     + totalRebarWeight / slabArea)
    (* prestressForce *) None
    (* eccentricity *) None
    (* balanceRatio *) None
    (* numStrands *) None
    (* checks *) checksLiteral.

End Cost.

(** The deflection and vibration checks and the cost block. *)
Definition evaluate (sortedCosts : list SlabCost) : PointResult :=
  if gtb netDeflection deflectionLimit then Rejected NoCounter
  else if ltb frequency 5.0 then Rejected NoCounter
  else
    match slabBaseCost 15 slabThickness sortedCosts with
    | inl err => Threw err
    | inr baseCost => Costed (design baseCost)
    end.

End Prestressed.

(** The body of the [slabThickness] loop. *)
Definition point (sortedCosts : list SlabCost) : PointResult :=
  if ltb emax_slab 0.5 then Rejected NoCounter
  else
    match findSlabPrestress with
    | None => Rejected NoCounter
    | Some slabPrestress =>
        match findBeamPrestress with
        | None => Rejected NoCounter
        | Some beamPrestress => evaluate slabPrestress beamPrestress sortedCosts
        end
    end.

End Slab.

Definition widthBody (s : SearchState) : SearchState :=
  forEach (forRange minSlabThickness 8 0.5) (fun slabThickness s' =>
    step s' (point slabThickness (sortByThickness (slabCostsArray s')))) s.

End Width.

Definition depthBody (s : SearchState) : SearchState :=
  forEach (forRange 12 24 2) widthBody s.

End Depth.

Definition strengthBody (s : SearchState) : SearchState :=
  if strengthSkipped bayLength fc then s
  else forEach (forRange minBeamDepth maxBeamDepth 2) depthBody s.

End Strength.

Definition run : SearchState :=
  forEach concreteStrengths strengthBody (initialState costParams).

End Search.
End OneWayBeam.

(** [optimizeOneWayBeam(bayLength, bayWidth, userBeamDepth, costParams)];
    [userBeamDepth] is not read. *)
Definition optimizeOneWayBeam (sqrt : Q -> Q)
  (bayLength bayWidth userBeamDepth : Q) (costParams : CostParameters)
  : error + option DesignResult :=
  searchResult (OneWayBeam.run sqrt bayLength bayWidth costParams).

Definition optimizeOneWayBeam_array (sqrt : Q -> Q)
  (bayLength bayWidth userBeamDepth : Q) (costParams : CostParameters)
  : list SlabCost :=
  slabCostsArray (OneWayBeam.run sqrt bayLength bayWidth costParams).

(** ** optimizeTwoWayBeam *)

Module TwoWayBeam.
Section Search.

Variable sqrt : Q -> Q.
Variables bayLength bayWidth : Q.
Variable costParams : CostParameters.

Section Strength.
Variable fc : Q.

Definition fci : Q := 0.7 * fc.
Definition Ec : Q := getConcreteModulus sqrt fc.
Definition limits : Limits.t := getStressLimits sqrt fc fci.
Definition criticalSpan : Q := Qmax bayLength bayWidth.
Definition minBeamDepth : Q := Qmax 12 (floor (criticalSpan * 12 / 20)).
Definition maxBeamDepth : Q := Qmin 48 (ceil (criticalSpan * 12 / 12)).

Section Depth.
Variable beamDepth : Q.

Section Width.
Variable beamWidth : Q.

Definition clearSpanL : Q := bayLength - beamWidth / 12.
Definition clearSpanW : Q := bayWidth - beamWidth / 12.
Definition shortSpan : Q := Qmin clearSpanL clearSpanW.
Definition minSlabThickness : Q := Qmax 3 (ceil ((shortSpan * 12) / 200)).

Section Slab.
Variable slabThickness : Q.

Definition longSpan : Q := Qmax clearSpanL clearSpanW.
Definition aspectRatio : Q := longSpan / shortSpan.
Definition alphaShort : Q :=
  if leb aspectRatio 1.0 then 0.125 else 0.125 * pow aspectRatio (-2).
Definition alphaLong : Q :=
  if leb aspectRatio 1.0 then 0.125 else 0.125 - alphaShort.

Definition slabProps : Props.t := getSectionProperties slabThickness.
Definition slabDead : Q := 12.5 * slabThickness.
Definition slabLive : Q := 40.
Definition Md_short : Q := alphaShort * slabDead * shortSpan * shortSpan * 12.
Definition Ml_short : Q := alphaShort * slabLive * shortSpan * shortSpan * 12.
Definition Mt_short : Q := Md_short + Ml_short.
Definition Md_long : Q := alphaLong * slabDead * longSpan * longSpan * 12.
Definition Ml_long : Q := alphaLong * slabLive * longSpan * longSpan * 12.
Definition Mt_long : Q := Md_long + Ml_long.
Definition Mt_critical : Q := Qmax Mt_short Mt_long.
Definition Md_critical : Q := if gtb Mt_critical Mt_short then Md_long else Md_short.
Definition Ml_critical : Q := if gtb Mt_critical Mt_short then Ml_long else Ml_short.
Definition Mt_critical_service : Q := Md_critical + 0.3 * Ml_critical.
Definition slabCover : Q := getCoverRequirement fc.
Definition strandDiameter : Q := 0.375.
Definition emax_slab : Q := slabThickness / 2 - slabCover - strandDiameter / 2.

Definition findSlabPrestress : option SlabPrestress.t :=
  searchPrestress
    (slabTrial limits fc (Props.A slabProps) (Props.St slabProps)
       (Props.Sb slabProps) Md_critical Mt_critical_service emax_slab)
    (forRange 0.7 1.1 0.1) (forRange 0.6 0.95 0.05).

Definition totalDepth : Q := beamDepth + slabThickness.
Definition beamWeight : Q := (beamWidth * totalDepth / 144) * 150.
Definition slabDeadL : Q := slabDead * clearSpanW / 2.
Definition slabLiveL : Q := slabLive * clearSpanW / 2.
Definition totalDeadL : Q := slabDeadL + beamWeight.
Definition totalLiveL : Q := slabLiveL.
Definition Md_beamL : Q := totalDeadL * bayLength * bayLength * 12 / 10.
Definition Ml_beamL : Q := totalLiveL * bayLength * bayLength * 12 / 10.
Definition Mt_beamL : Q := Md_beamL + Ml_beamL.
Definition slabDeadW : Q := slabDead * clearSpanL / 2.
Definition slabLiveW : Q := slabLive * clearSpanL / 2.
Definition totalDeadW : Q := slabDeadW + beamWeight.
Definition totalLiveW : Q := slabLiveW.
Definition Md_beamW : Q := totalDeadW * bayWidth * bayWidth * 12 / 10.
Definition Ml_beamW : Q := totalLiveW * bayWidth * bayWidth * 12 / 10.
Definition Mt_beamW : Q := Md_beamW + Ml_beamW.
Definition Mt_beam : Q := Qmax Mt_beamL Mt_beamW.
Definition Md_beam : Q := if gtb Mt_beam Mt_beamL then Md_beamW else Md_beamL.
Definition Ml_beam : Q := if gtb Mt_beam Mt_beamL then Ml_beamW else Ml_beamL.
Definition Mt_beam_service : Q := Md_beam + 0.3 * Ml_beam.
Definition beamA : Q := beamWidth * totalDepth.
Definition beamI : Q := (beamWidth * pow totalDepth 3) / 12.
Definition beamSt : Q := beamI / (totalDepth / 2).
Definition beamSb : Q := beamSt.
Definition beamCover : Q := getCoverRequirement fc + 0.5.
Definition emax_beam : Q := totalDepth / 2 - beamCover - 1.0.

Definition findBeamPrestress : option BeamPrestress.t :=
  searchPrestress
    (beamTrial limits fc beamA beamSt beamSb Md_beam Mt_beam_service emax_beam)
    (forRange 0.8 1.1 0.1) (forRange 0.7 0.95 0.05).

Section Prestressed.
Variable slabPrestress : SlabPrestress.t.
Variable beamPrestress : BeamPrestress.t.

Definition w_live : Q := slabLive / 1000.
Definition L : Q := shortSpan.
Definition fr : Q := 7.5 * sqrt fc.
Definition yt : Q := slabThickness / 2.
Definition Mcr : Q := (fr * Props.I slabProps) / yt.
Definition M_service : Q := alphaShort * slabLive * L * L * 12.
Definition Ie : Q :=
  if leb M_service ((2 / 3) * Mcr) then Props.I slabProps
  else
    let Icr := 0.45 * Props.I slabProps in
    Icr + pow (Mcr / M_service) 3 * (Props.I slabProps - Icr).
Definition delta_L : Q :=
  (alphaShort * 5 * w_live * pow (L * 12) 4) / (384 * Ec * Ie / 1000).
Definition camber : Q :=
  (SlabPrestress.Pe slabPrestress * SlabPrestress.e slabPrestress
   * pow (L * 12) 2) / (8 * Ec * Ie / 1000).
Definition netDeflection : Q := delta_L - 0.8 * camber.
Definition deflectionLimit : Q := (L * 12) / 480.
Definition frequency : Q := 0.18 * sqrt (386.4 / delta_L) * 1.2.

Definition slabArea : Q := bayLength * bayWidth.
Definition beamVolumeL : Q := (bayLength * beamWidth * totalDepth) / 1728.
Definition beamVolumeW : Q := (bayWidth * beamWidth * totalDepth) / 1728.
Definition totalBeamVolume : Q := beamVolumeL + beamVolumeW.

Section Cost.
Variable baseCost : Q.

Definition slabCost : Q := adjustSlabCostForStrength baseCost slabThickness fc.
Definition fy : Q := 60000.
Definition d_slab : Q := slabThickness - 1.0.
Definition fs_bot_slab : Q :=
  - SlabPrestress.Pe slabPrestress / Props.A slabProps
  - SlabPrestress.Pe slabPrestress * SlabPrestress.e slabPrestress
    / Props.Sb slabProps
  + Mt_critical / Props.Sb slabProps.
Definition maxTensileStress : Q := Qmax fs_bot_slab 0.
Definition slabSteel : Steel.t :=
  calculateTotalMildSteel sqrt slabThickness shortSpan fc fy maxTensileStress
    Mcr d_slab.
Definition slabPtForceShort : Q := SlabPrestress.Pe slabPrestress * longSpan.
Definition slabPtForceLong : Q :=
  SlabPrestress.Pe slabPrestress * shortSpan * 0.8.
Definition beamPtForceL : Q :=
  if gtb Mt_beamL Mt_beamW then BeamPrestress.Pe beamPrestress
  else BeamPrestress.Pe beamPrestress * 0.8.
Definition beamPtForceW : Q :=
  if gtb Mt_beamW Mt_beamL then BeamPrestress.Pe beamPrestress
  else BeamPrestress.Pe beamPrestress * 0.8.
Definition fpe : Q := 0.74 * 270000 * 0.82.
Definition strandArea : Q := 0.153.
Definition forcePerStrand : Q := fpe * strandArea.
Definition slabStrandsShort : Q := ceil (slabPtForceShort / forcePerStrand).
Definition slabStrandsLong : Q := ceil (slabPtForceLong / forcePerStrand).
Definition beamStrandsL : Q := ceil (beamPtForceL / forcePerStrand).
Definition beamStrandsW : Q := ceil (beamPtForceW / forcePerStrand).
Definition slabStrandWeightShort : Q := slabStrandsShort * 0.52 * shortSpan * 1.02.
Definition slabStrandWeightLong : Q := slabStrandsLong * 0.52 * longSpan * 1.02.
Definition beamStrandWeightL : Q := beamStrandsL * 0.52 * bayLength * 1.02.
Definition beamStrandWeightW : Q := beamStrandsW * 0.52 * bayWidth * 1.02.
Definition totalStrandWeight : Q :=
  slabStrandWeightShort + slabStrandWeightLong
  + beamStrandWeightL + beamStrandWeightW.
Definition slabRebarWeight : Q :=
  Steel.governing slabSteel * 0.668 / 0.20 * slabArea * 1.2.
Definition beamRebarArea : Q := 0.0020 * beamA / 144.
Definition beamRebarWeight : Q := beamRebarArea * 490 * totalBeamVolume.
Definition totalRebarWeight : Q := slabRebarWeight + beamRebarWeight.
Definition concreteCost : Q := slabArea * slabCost.
Definition formworkCost : Q := slabArea * ptFormworkCostPerSf costParams.
Definition beamFormCost : Q := totalBeamVolume * beamFormingCostPerCf costParams.
Definition beamPourCost : Q := totalBeamVolume * beamPouringCostPerCf costParams.
Definition ptCost : Q := totalStrandWeight * ptStrandCostPerLb costParams.
Definition rebarCost : Q :=
  totalRebarWeight * mildSteelCostOrDefault (mildSteelCostPerLb costParams).
Definition totalCost : Q :=
  concreteCost + formworkCost + beamFormCost + beamPourCost + ptCost + rebarCost.

Definition design : DesignResult :=
  mkDesignResult
    (* slabThickness *) slabThickness
    (* beamWidth *) (Some beamWidth)
    (* beamDepth *) (Some totalDepth)
    (* concreteStrength *) fc
    (* ptForce *) (SlabPrestress.avgPrestress slabPrestress)
    (* beamPtForce *) (Some (BeamPrestress.Pe beamPrestress / beamA))
    (* aspectRatio *) (Some aspectRatio)
    (* mildSteelRatio *) None
    (* mildSteelDetails *) None
    (* totalCost *) totalCost
    (* costBreakdown *)
    (mkCostBreakdown concreteCost formworkCost (Some beamFormCost)
       (Some beamPourCost) ptCost rebarCost)
    (* weightPerSf *)
    ((slabThickness / 12) * 150 + (totalBeamVolume * 150) / slabArea
     + totalRebarWeight / slabArea)
    (* prestressForce *) None
    (* eccentricity *) None
    (* balanceRatio *) None
    (* numStrands *) None
    (* checks *) checksLiteral.

End Cost.

Definition evaluate (sortedCosts : list SlabCost) : PointResult :=
  if gtb netDeflection deflectionLimit then Rejected NoCounter
  else if ltb frequency 5.0 then Rejected NoCounter
  else
    match slabBaseCost 12 slabThickness sortedCosts with
    | inl err => Threw err
    | inr baseCost => Costed (design baseCost)
    end.

End Prestressed.

Definition point (sortedCosts : list SlabCost) : PointResult :=
  if ltb emax_slab 0.5 then Rejected NoCounter
  else
    match findSlabPrestress with
    | None => Rejected NoCounter
    | Some slabPrestress =>
        match findBeamPrestress with
        | None => Rejected NoCounter
        | Some beamPrestress => evaluate slabPrestress beamPrestress sortedCosts
        end
    end.

End Slab.

Definition widthBody (s : SearchState) : SearchState :=
  forEach (forRange minSlabThickness 6 0.5) (fun slabThickness s' =>
    step s' (point slabThickness (sortByThickness (slabCostsArray s')))) s.

End Width.

Definition depthBody (s : SearchState) : SearchState :=
  forEach (forRange 12 20 2) widthBody s.

End Depth.

Definition strengthBody (s : SearchState) : SearchState :=
  if strengthSkipped bayLength fc then s
  else forEach (forRange minBeamDepth maxBeamDepth 2) depthBody s.

End Strength.

Definition run : SearchState :=
  forEach concreteStrengths strengthBody (initialState costParams).

End Search.
End TwoWayBeam.

(** [optimizeTwoWayBeam(bayLength, bayWidth, userBeamDepth, costParams)];
    [userBeamDepth] is not read. *)
Definition optimizeTwoWayBeam (sqrt : Q -> Q)
  (bayLength bayWidth userBeamDepth : Q) (costParams : CostParameters)
  : error + option DesignResult :=
  searchResult (TwoWayBeam.run sqrt bayLength bayWidth costParams).

Definition optimizeTwoWayBeam_array (sqrt : Q -> Q)
  (bayLength bayWidth userBeamDepth : Q) (costParams : CostParameters)
  : list SlabCost :=
  slabCostsArray (TwoWayBeam.run sqrt bayLength bayWidth costParams).

(** ** optimize: the comparison table *)




(** The three searches threaded through one shared cost table, as in
    the callback of [comparisonSpans.map]: each search starts from the
    array the previous one left. *)
Definition withArray (costParams : CostParameters) (arr : list SlabCost)
  : CostParameters :=
  mkCostParameters arr (ptFormworkCostPerSf costParams)
    (beamFormingCostPerCf costParams) (beamPouringCostPerCf costParams)
    (ptStrandCostPerLb costParams) (mildSteelCostPerLb costParams)
    (concreteStrength_param costParams) (concreteCostPerCy costParams).




(** ** Properties of the inputs *)

(** Thicknesses in non-decreasing order: the order the sort leaves. *)
Fixpoint orderedThickness (l : list SlabCost) : Prop :=
  match l with
  | p1 :: ((p2 :: _) as rest) => thickness p1 <= thickness p2 /\ orderedThickness rest
  | _ => True
  end.



(** The design a search retains, if any, satisfies [P]. *)
Definition bestSatisfies (P : DesignResult -> Prop) (s : SearchState) : Prop :=
  forall d, bestDesign s = Some d -> P d.

(** No exception so far, the caller's array [input] is as it was
    passed or sorted, and [minCost] is still [Infinity] when no design
    is retained. *)
Definition tame (input : list SlabCost) (s : SearchState) : Prop :=
  thrown s = None /\
  (slabCostsArray s = input \/ slabCostsArray s = sortByThickness input) /\
  (bestDesign s = None -> minCost s = None).

(** The points the four loops of [optimizeFlatPlate] visit. *)
Definition flatPlateGrid (bayLength fc t br er : Q) : Prop :=
  In fc concreteStrengths /\ strengthSkipped bayLength fc = false /\
  In t (FlatPlate.thicknesses bayLength) /\ 1.0 <= FlatPlate.emax fc t /\
  In br FlatPlate.balanceRatios /\ In er FlatPlate.eRatios.

(** The points the loops of [optimizeOneWayBeam] visit. *)
Definition oneWayGrid (bayLength bayWidth fc beamDepth beamWidth slabThickness : Q)
  : Prop :=
  In fc concreteStrengths /\ strengthSkipped bayLength fc = false /\
  In beamDepth (forRange (OneWayBeam.minBeamDepth bayLength)
                  (OneWayBeam.maxBeamDepth bayLength) 2) /\
  In beamWidth (forRange 12 24 2) /\
  In slabThickness
    (forRange (OneWayBeam.minSlabThickness bayWidth beamWidth) 8 0.5).

(** The points the loops of [optimizeTwoWayBeam] visit. *)
Definition twoWayGrid (bayLength bayWidth fc beamDepth beamWidth slabThickness : Q)
  : Prop :=
  In fc concreteStrengths /\ strengthSkipped bayLength fc = false /\
  In beamDepth (forRange (TwoWayBeam.minBeamDepth bayLength bayWidth)
                  (TwoWayBeam.maxBeamDepth bayLength bayWidth) 2) /\
  In beamWidth (forRange 12 20 2) /\
  In slabThickness
    (forRange (TwoWayBeam.minSlabThickness bayLength bayWidth beamWidth) 6 0.5).

(** The default table of the cost form (CostForm.tsx). *)
Definition formTable : list SlabCost :=
  [mkSlabCost 3 10.50; mkSlabCost 4 11.00; mkSlabCost 5 11.50;
   mkSlabCost 6 12.50; mkSlabCost 7 13.00; mkSlabCost 8 14.00;
   mkSlabCost 9 15.50; mkSlabCost 10 17.00; mkSlabCost 11 18.80;
   mkSlabCost 12 22.50].

(** The default cost parameters of the cost form (CostForm.tsx). *)
Definition formCostParameters : CostParameters :=
  mkCostParameters formTable 4.50 22.00 22.00 1.15 (Some 1.20)
    (Some 5000) (Some 220).

(** The same parameters with the cost table entered in descending
    order of thickness. *)
Definition descendingCostParameters : CostParameters :=
  withArray formCostParameters (rev formTable).

(** The same parameters with a mild-steel unit cost of exactly 0. *)
Definition zeroSteelCostParameters : CostParameters :=
  mkCostParameters formTable 4.50 22.00 22.00 1.15 (Some 0)
    (Some 5000) (Some 220).






(** * Proofs *)

(** ** Comparisons *)

Lemma ltb_true (a b : Q) : ltb a b = true <-> a < b.
Proof.
  unfold ltb. rewrite negb_true_iff. split; intro H.
  - apply Qnot_le_lt. intro Hle. apply Qle_bool_iff in Hle. congruence.
  - destruct (Qle_bool b a) eqn:E; [|reflexivity].
    apply Qle_bool_iff in E. lra.
Qed.

Lemma ltb_false (a b : Q) : ltb a b = false <-> b <= a.
Proof.
  unfold ltb. rewrite negb_false_iff. apply Qle_bool_iff.
Qed.

Lemma leb_true (a b : Q) : leb a b = true <-> a <= b.
Proof. apply Qle_bool_iff. Qed.

Lemma leb_false (a b : Q) : leb a b = false <-> b < a.
Proof.
  unfold leb. split; intro H.
  - apply Qnot_le_lt. intro Hle. apply Qle_bool_iff in Hle. congruence.
  - destruct (Qle_bool a b) eqn:E; [|reflexivity].
    apply Qle_bool_iff in E. lra.
Qed.

Lemma gtb_true (a b : Q) : gtb a b = true <-> b < a.
Proof. apply ltb_true. Qed.

Lemma gtb_false (a b : Q) : gtb a b = false <-> a <= b.
Proof. apply ltb_false. Qed.

Lemma geb_true (a b : Q) : geb a b = true <-> b <= a.
Proof. apply leb_true. Qed.

Lemma geb_false (a b : Q) : geb a b = false <-> a < b.
Proof. apply leb_false. Qed.

(** Case analysis on a comparison, leaving its meaning as a hypothesis. *)
Ltac case_cmp :=
  match goal with
  | |- context [ltb ?a ?b] =>
      let E := fresh "E" in
      destruct (ltb a b) eqn:E;
      [apply ltb_true in E | apply ltb_false in E]
  | |- context [gtb ?a ?b] =>
      let E := fresh "E" in
      destruct (gtb a b) eqn:E;
      [apply gtb_true in E | apply gtb_false in E]
  | |- context [leb ?a ?b] =>
      let E := fresh "E" in
      destruct (leb a b) eqn:E;
      [apply leb_true in E | apply leb_false in E]
  | |- context [geb ?a ?b] =>
      let E := fresh "E" in
      destruct (geb a b) eqn:E;
      [apply geb_true in E | apply geb_false in E]
  end.

(** ** Comparisons of doubles *)

Lemma SFcompare_antisym f g c :
  SFcompare f g = Some c -> SFcompare g f = Some (CompOpp c).
Proof.
  destruct f as [s1| s1| |s1 m1 e1], g as [s2|s2| |s2 m2 e2]; cbn;
    try discriminate;
    try (destruct s1; intro H; injection H as <-; reflexivity);
    try (destruct s2; intro H; injection H as <-; reflexivity);
    try (intro H; injection H as <-; reflexivity).
  - destruct s1, s2; intro H; injection H as <-; reflexivity.
  - intro H; injection H as <-. f_equal.
    destruct s1, s2; try reflexivity.
    + rewrite (Z.compare_antisym e1 e2).
      destruct (e1 ?= e2)%Z; cbn; try reflexivity.
      rewrite (Pos.compare_cont_antisym m1 m2 Eq). cbn.
      destruct (Pos.compare_cont Eq m1 m2); reflexivity.
    + rewrite (Z.compare_antisym e1 e2).
      destruct (e1 ?= e2)%Z; cbn; try reflexivity.
      rewrite (Pos.compare_cont_antisym m1 m2 Eq). cbn.
      destruct (Pos.compare_cont Eq m1 m2); reflexivity.
Qed.

Lemma SFcompare_some f g :
  f <> S754_nan -> g <> S754_nan -> exists c, SFcompare f g = Some c.
Proof.
  destruct f, g; cbn; try congruence; intros _ _; eexists; reflexivity.
Qed.

Lemma SFcompare_refl f : f <> S754_nan -> SFcompare f f = Some Eq.
Proof.
  destruct f as [s|s| |s m e]; cbn; try congruence; intros _.
  - destruct s; reflexivity.
  - rewrite Z.compare_refl, Pos.compare_cont_refl. destruct s; reflexivity.
Qed.

Lemma is_nan_false (x : float) : is_nan x = false <-> Prim2SF x <> S754_nan.
Proof.
  unfold is_nan. rewrite FloatAxioms.eqb_spec, negb_false_iff. unfold SFeqb. split.
  - intros H E. rewrite E in H. discriminate.
  - intro H. rewrite (SFcompare_refl _ H). reflexivity.
Qed.

Lemma is_nan_true (x : float) : is_nan x = true <-> Prim2SF x = S754_nan.
Proof.
  split.
  - intro H. destruct (Prim2SF x) eqn:E; try reflexivity;
      assert (Hf : is_nan x = false) by (apply is_nan_false; rewrite E; discriminate);
      congruence.
  - intro H. destruct (is_nan x) eqn:E; [reflexivity|].
    apply is_nan_false in E. contradiction.
Qed.

(** A comparison with [NaN] is false. *)
Lemma double_leb_nan_l (x y : float) :
  is_nan x = true -> (x <=? y)%float = false.
Proof.
  intro H. apply is_nan_true in H. rewrite leb_spec, H. reflexivity.
Qed.

Lemma double_leb_nan_r (x y : float) :
  is_nan y = true -> (x <=? y)%float = false.
Proof.
  intro H. apply is_nan_true in H. rewrite leb_spec, H.
  destruct (Prim2SF x); reflexivity.
Qed.

Lemma double_leb_not_nan (x y : float) :
  (x <=? y)%float = true -> is_nan x = false /\ is_nan y = false.
Proof.
  intro H. split.
  - destruct (is_nan x) eqn:E; [|reflexivity].
    rewrite (double_leb_nan_l x y E) in H. discriminate.
  - destruct (is_nan y) eqn:E; [|reflexivity].
    rewrite (double_leb_nan_r x y E) in H. discriminate.
Qed.

(** Two numbers that are not [NaN] are comparable. *)
Lemma double_leb_total (x y : float) :
  is_nan x = false -> is_nan y = false ->
  (x <=? y)%float = false -> (y <=? x)%float = true.
Proof.
  rewrite !is_nan_false, !leb_spec. unfold SFleb. intros Hx Hy.
  destruct (SFcompare_some _ _ Hx Hy) as [c Hc].
  rewrite Hc, (SFcompare_antisym _ _ _ Hc).
  destruct c; cbn; congruence.
Qed.

Lemma double_ltb_leb (x y : float) :
  (x <? y)%float = true -> (x <=? y)%float = true /\ (y <=? x)%float = false.
Proof.
  rewrite ltb_spec, !leb_spec. unfold SFltb, SFleb.
  destruct (SFcompare (Prim2SF x) (Prim2SF y)) as [c|] eqn:Hc; [|discriminate].
  rewrite (SFcompare_antisym _ _ _ Hc). destruct c; cbn; try discriminate.
  intros _. split; reflexivity.
Qed.
(** ** C1 *)

Lemma fiber_top_minus_f_top (P A e St M : Q) :
  fiber_top P A e St M - AnalyzeStresses.f_top P A e St M
  == 2 * (P * e / St - M / St).
Proof. unfold fiber_top, AnalyzeStresses.f_top. ring. Qed.

(** C1.  The search's top-fibre formula and the analysis script's
    top-fibre formula carry the eccentric-prestress and load bending
    terms with opposite signs, and give different stresses whenever
    [P*e/St] differs from [M/St]. *)
Theorem stress_formulas_disagree (P A e St M : Q) :
  (fiber_top P A e St M == - P / A + (P * e / St - M / St)) /\
  (AnalyzeStresses.f_top P A e St M == - P / A - (P * e / St - M / St)) /\
  (~ P * e / St == M / St ->
   ~ fiber_top P A e St M == AnalyzeStresses.f_top P A e St M).
Proof.
  split; [|split].
  - unfold fiber_top. ring.
  - unfold AnalyzeStresses.f_top. ring.
  - intros Hne Heq. apply Hne.
    pose proof (fiber_top_minus_f_top P A e St M) as H.
    rewrite Heq in H. lra.
Qed.

Lemma stress_formulas_disagree_witness :
  ~ 56250 * 2 / 200 == 135000 / 200 /\
  ~ fiber_top 56250 120 2 200 135000
    == AnalyzeStresses.f_top 56250 120 2 200 135000.
Proof.
  assert (H : ~ 56250 * 2 / 200 == 135000 / 200) by (vm_compute; discriminate).
  split; [exact H|].
  exact (proj2 (proj2 (stress_formulas_disagree 56250 120 2 200 135000)) H).
Defined.


(** ** C2 *)




(** ** C4 *)

Section FlatPlateCapacity.

Variable sqrt : Q -> Q.
Variables bayLength bayWidth : Q.
Variable costParams : CostParameters.
Variables fc thickness balanceRatio eRatio : Q.
Variable sortedCosts : list SlabCost.

Local Abbreviation epsilon_t :=
  (FlatPlate.epsilon_t bayLength fc thickness balanceRatio eRatio).
Local Abbreviation phi := (FlatPlate.phi bayLength fc thickness balanceRatio eRatio).
Local Abbreviation Mn := (FlatPlate.Mn bayLength fc thickness balanceRatio eRatio).
Local Abbreviation Mt := (FlatPlate.Mt bayLength thickness).
Local Abbreviation avgPrestress :=
  (FlatPlate.avgPrestress bayLength fc thickness balanceRatio eRatio).
Local Abbreviation stressScreening :=
  (FlatPlate.stressScreening sqrt bayLength fc thickness balanceRatio eRatio).
Local Abbreviation point :=
  (FlatPlate.point sqrt bayLength bayWidth costParams fc thickness
     balanceRatio eRatio sortedCosts).

Lemma phi_tension_controlled : 0.005 <= epsilon_t -> phi = Some 0.9.
Proof.
  intro H. unfold FlatPlate.phi.
  apply geb_true in H. rewrite H. reflexivity.
Qed.

Lemma phi_transition :
  0.002 <= epsilon_t -> epsilon_t < 0.005 ->
  exists p, phi = Some p /\
            p == 0.65 + (epsilon_t - 0.002) * (0.9 - 0.65) / (0.005 - 0.002) /\
            0.65 <= p /\ p < 0.9.
Proof.
  intros Hlo Hhi. unfold FlatPlate.phi.
  apply geb_false in Hhi. rewrite Hhi.
  apply geb_true in Hlo. rewrite Hlo.
  apply geb_false in Hhi. apply geb_true in Hlo.
  eexists. split; [reflexivity|]. split; [reflexivity|].
  set (x := epsilon_t) in *.
  assert (E : 0.65 + (x - 0.002) * (0.9 - 0.65) / (0.005 - 0.002)
              == 0.65 + (x - 0.002) * (250 # 3)) by (field).
  rewrite E. split; lra.
Qed.

Lemma phi_compression_controlled : epsilon_t < 0.002 -> phi = None.
Proof.
  intro H. unfold FlatPlate.phi.
  assert (H5 : epsilon_t < 0.005) by lra.
  apply geb_false in H, H5. rewrite H5, H. reflexivity.
Qed.

(** C4.  In the flat-plate moment check [phi] is 0.9 for a strain of
    at least 0.005, interpolated linearly between 0.65 and 0.9 for a
    strain from 0.002 to 0.005, and the candidate is rejected below
    0.002; a candidate that reaches the check passes it exactly when
    the total factored moment is at most [phi * Mn]. *)
Theorem flat_plate_moment_check :
  (0.005 <= epsilon_t -> phi = Some 0.9) /\
  (0.002 <= epsilon_t -> epsilon_t < 0.005 ->
   exists p, phi = Some p /\
             p == 0.65 + (epsilon_t - 0.002) * (0.9 - 0.65) / (0.005 - 0.002) /\
             0.65 <= p /\ p < 0.9) /\
  (epsilon_t < 0.002 ->
   phi = None /\
   (forall d, point <> Costed d) /\
   (stressScreening = None -> 175 <= avgPrestress ->
    point = Rejected TensionControlFailed)) /\
  (forall p, stressScreening = None -> 175 <= avgPrestress -> phi = Some p ->
             (point <> Rejected MomentCapacityFailed <-> Mt <= p * Mn)).
Proof.
  split; [exact phi_tension_controlled|].
  split; [exact phi_transition|].
  split.
  - intro Hlt. pose proof (phi_compression_controlled Hlt) as Hphi.
    split; [exact Hphi|]. split.
    + intros d. unfold FlatPlate.point. rewrite Hphi.
      destruct stressScreening; [discriminate|].
      case_cmp; discriminate.
    + intros Hs Ha. unfold FlatPlate.point. rewrite Hs, Hphi.
      apply ltb_false in Ha. rewrite Ha. reflexivity.
  - intros p Hs Ha Hphi. unfold FlatPlate.point. rewrite Hs, Hphi.
    apply ltb_false in Ha. rewrite Ha. cbv zeta.
    destruct (gtb Mt (p * Mn)) eqn:E;
      [apply gtb_true in E | apply gtb_false in E].
    + split; [intro H; exfalso; apply H; reflexivity | intro H; lra].
    + split; [intros _; exact E|intros _].
      repeat case_cmp; try discriminate.
      destruct (slabBaseCost 20 thickness sortedCosts); discriminate.
Qed.

End FlatPlateCapacity.

Lemma flat_plate_moment_check_witness :
  FlatPlate.point Qsqrt 18 30 formCostParameters 7000 8 0.6 0.6 formTable
  <> Rejected MomentCapacityFailed
  <-> FlatPlate.Mt 18 8 <= 0.9 * FlatPlate.Mn 18 7000 8 0.6 0.6.
Proof.
  apply (proj2 (proj2 (proj2
           (flat_plate_moment_check Qsqrt 18 30 formCostParameters
              7000 8 0.6 0.6 formTable)))).
  - vm_compute. reflexivity.
  - apply Qle_bool_iff. vm_compute. reflexivity.
  - vm_compute. reflexivity.
Defined.

(** ** C9 *)

(** C9.  For a 10 in slab ([Mcr = 106066], [d = 8.5], [fy = 60000])
    the minimum-bonded requirement that [calculateTotalMildSteel]
    returns is below the temperature/shrinkage requirement it returns;
    only the governing value is at least the latter. *)
Theorem bonded_below_temperature_shrinkage (sqrt : Q -> Q) :
  let steel := calculateTotalMildSteel sqrt 10 30 5000 60000 0 106066 8.5 in
  Steel.bonded steel < Steel.tempShrinkage steel /\
  Steel.tempShrinkage steel <= Steel.governing steel.
Proof.
  cbv zeta. unfold calculateTotalMildSteel. cbn [Steel.bonded Steel.tempShrinkage Steel.governing].
  split.
  - vm_compute. reflexivity.
  - unfold max3. eapply Qle_trans; [|apply Q.le_max_l]. apply Q.le_max_l.
Qed.

(** ** C6 *)

(** C6, counterexample.  A table of one point, a table whose only
    thickness is [NaN] and a table with an infinite unit cost are all
    interpolated without any error: the block returns the point's unit
    cost, the default base cost and [Infinity]. *)
Lemma unvalidated_tables_are_accepted :
  ((List.length [Double.mkSlabCost 8 14] < 2)%nat /\
   Double.slabBaseCost 20 10 [Double.mkSlabCost 8 14] = inr 14%float) /\
  (is_finite nan = false /\
   Double.slabBaseCost 20 8 [Double.mkSlabCost nan 14] = inr 20%float) /\
  (is_finite infinity = false /\
   Double.slabBaseCost 20 8 [Double.mkSlabCost 3 10; Double.mkSlabCost 13 infinity]
   = inr infinity).
Proof.
  split; [split; [cbn; lia | reflexivity]|].
  split; split; reflexivity.
Qed.

(** C6, as amended.  The block validates nothing.  Only the empty
    table makes it fail, with the [TypeError] of reading
    [sortedCosts[0].thickness]; every other table, whatever it holds,
    yields a number.  A table of one point yields that point's unit
    cost when neither its thickness nor the queried thickness is
    [NaN], and the default base cost when its thickness is [NaN]. *)
Theorem cost_table_is_not_validated :
  (forall default t,
      Double.slabBaseCost default t []
      = inl (TypeError "Cannot read properties of undefined (reading 'thickness')")) /\
  (forall default t table,
      table <> [] -> exists c, Double.slabBaseCost default t table = inr c) /\
  (forall default t p,
      is_nan t = false -> is_nan (Double.thickness p) = false ->
      Double.slabBaseCost default t [p] = inr (Double.costPerSf p)) /\
  (forall default t p,
      is_nan (Double.thickness p) = true ->
      Double.slabBaseCost default t [p] = inr default).
Proof.
  split; [reflexivity|]. split; [|split].
  - intros default t [|first rest] Hne; [congruence|].
    unfold Double.slabBaseCost.
    destruct (t <=? Double.thickness first)%float; [eexists; reflexivity|].
    destruct (_ <=? t)%float; eexists; reflexivity.
  - intros default t p Ht Hp. unfold Double.slabBaseCost. cbn [last].
    destruct (t <=? Double.thickness p)%float eqn:E; [reflexivity|].
    rewrite (double_leb_total _ _ Ht Hp E). reflexivity.
  - intros default t p Hp. unfold Double.slabBaseCost.
    cbn [last Double.bracketCost].
    rewrite (double_leb_nan_r _ _ Hp), (double_leb_nan_l _ _ Hp). reflexivity.
Qed.

Lemma cost_table_is_not_validated_witness :
  (exists c, Double.slabBaseCost 20 8 [Double.mkSlabCost nan infinity] = inr c) /\
  Double.slabBaseCost 20 10 [Double.mkSlabCost 8 14] = inr 14%float /\
  Double.slabBaseCost 20 10 [Double.mkSlabCost nan 14] = inr 20%float.
Proof.
  destruct cost_table_is_not_validated as (_ & Hany & Hone & Hnan).
  split; [apply Hany; discriminate|].
  split; [apply (Hone 20 10 (Double.mkSlabCost 8 14))%float; reflexivity|].
  apply (Hnan 20 10 (Double.mkSlabCost nan 14))%float. reflexivity.
Defined.

(** ** The cost table: sorting *)

Lemma insertByThickness_Forall (P : SlabCost -> Prop) x l :
  P x -> Forall P l -> Forall P (insertByThickness x l).
Proof.
  intros Hx Hl. induction Hl as [|y l Hy Hl IH]; simpl.
  - constructor; [exact Hx | constructor].
  - destruct (leb (thickness x) (thickness y)).
    + constructor; [exact Hx|]. constructor; assumption.
    + constructor; assumption.
Qed.

Lemma sortByThickness_Forall (P : SlabCost -> Prop) l :
  Forall P l -> Forall P (sortByThickness l).
Proof.
  induction 1 as [|x l Hx Hl IH]; simpl; [constructor|].
  apply insertByThickness_Forall; assumption.
Qed.

Lemma insertByThickness_nonempty x l : insertByThickness x l <> [].
Proof. destruct l; simpl; [discriminate|]. destruct (leb _ _); discriminate. Qed.

Lemma sortByThickness_nonempty l : l <> [] -> sortByThickness l <> [].
Proof.
  destruct l; [congruence|]. intros _. simpl. apply insertByThickness_nonempty.
Qed.

Lemma insertByThickness_perm x l : Permutation (x :: l) (insertByThickness x l).
Proof.
  induction l as [|y l IH]; simpl; [reflexivity|].
  destruct (leb _ _); [reflexivity|].
  rewrite perm_swap. constructor. exact IH.
Qed.

Lemma sortByThickness_perm l : Permutation l (sortByThickness l).
Proof.
  induction l as [|x l IH]; simpl; [constructor|].
  rewrite <- insertByThickness_perm. constructor. exact IH.
Qed.


Lemma insertByThickness_ordered x l :
  orderedThickness l -> orderedThickness (insertByThickness x l).
Proof.
  induction l as [|y l IH]; intro H; simpl; [exact I|].
  destruct (leb (thickness x) (thickness y)) eqn:E.
  - apply leb_true in E. split; assumption.
  - apply leb_false in E.
    assert (Hl : orderedThickness l) by (destruct l; [exact I | apply H]).
    specialize (IH Hl).
    destruct l as [|z l]; simpl in *.
    + split; [lra | exact I].
    + destruct (leb (thickness x) (thickness z)) eqn:E2.
      * split; [lra | exact IH].
      * split; [apply H | exact IH].
Qed.

Lemma sortByThickness_ordered l : orderedThickness (sortByThickness l).
Proof.
  induction l as [|x l IH]; simpl; [exact I|].
  apply insertByThickness_ordered. exact IH.
Qed.

Lemma sort_of_ordered l : orderedThickness l -> sortByThickness l = l.
Proof.
  induction l as [|p1 [|p2 rest] IH]; intro H; try reflexivity.
  destruct H as [Hle Hrest].
  change (sortByThickness (p1 :: p2 :: rest))
    with (insertByThickness p1 (sortByThickness (p2 :: rest))).
  rewrite (IH Hrest). simpl.
  apply leb_true in Hle. rewrite Hle. reflexivity.
Qed.

(** Sorting is idempotent: a second in-place sort leaves the array as
    the first one left it. *)
Lemma sortByThickness_idempotent l :
  sortByThickness (sortByThickness l) = sortByThickness l.
Proof. apply sort_of_ordered, sortByThickness_ordered. Qed.


(** ** The cost table: the interpolated value *)

Lemma last_cons_cons {X} (a b : X) l d : last (a :: b :: l) d = last (b :: l) d.
Proof. reflexivity. Qed.

Lemma last_default {X} (l : list X) d d' : l <> [] -> last l d = last l d'.
Proof.
  induction l as [|a [|b l] IH]; intro H; [congruence | reflexivity |].
  rewrite !last_cons_cons. apply IH. discriminate.
Qed.

(** In a table ordered by thickness, a thickness that is at least the
    first and below the last tabulated one lies in a pair of
    consecutive points, and the loop stops at such a pair. *)
Lemma bracket_found (t : float) :
  forall (rest : list Double.SlabCost) (p : Double.SlabCost),
  Double.orderedThickness (p :: rest) = true ->
  (Double.thickness p <=? t)%float = true ->
  (Double.thickness (last (p :: rest) p) <=? t)%float = false ->
  exists before p1 p2 after,
    p :: rest = before ++ p1 :: p2 :: after /\
    (Double.thickness p1 <=? t)%float = true /\
    (t <=? Double.thickness p2)%float = true /\
    Double.bracketCost t (p :: rest) = Some (Double.interpolate p1 p2 t).
Proof.
  induction rest as [|p2 rest IH]; intros p Hord Hp Hlast.
  - cbn in Hlast. congruence.
  - change (Double.orderedThickness (p :: p2 :: rest))
      with ((Double.thickness p <=? Double.thickness p2)%float
            && Double.orderedThickness (p2 :: rest)) in Hord.
    apply andb_true_iff in Hord. destruct Hord as [H12 Hord].
    destruct (t <=? Double.thickness p2)%float eqn:Ht.
    + exists [], p, p2, rest. split; [reflexivity|].
      split; [exact Hp|]. split; [exact Ht|].
      cbn [Double.bracketCost]. rewrite Hp, Ht. reflexivity.
    + assert (H2 : (Double.thickness p2 <=? t)%float = true).
      { apply double_leb_total; [|apply (double_leb_not_nan _ _ H12) | exact Ht].
        apply (double_leb_not_nan _ _ Hp). }
      rewrite last_cons_cons, (last_default _ p p2) in Hlast by discriminate.
      destruct (IH p2 Hord H2 Hlast)
        as (before & q1 & q2 & after & Eq & Hq1 & Hq2 & Hb).
      exists (p :: before), q1, q2, after.
      split; [rewrite Eq; reflexivity|].
      split; [exact Hq1|]. split; [exact Hq2|].
      change (Double.bracketCost t (p :: p2 :: rest))
        with (if (Double.thickness p <=? t)%float
                 && (t <=? Double.thickness p2)%float
              then Some (Double.interpolate p p2 t)
              else Double.bracketCost t (p2 :: rest)).
      rewrite Hp, Ht. exact Hb.
Qed.

(** ** C7 *)

(** C7, counterexample.  On a valid table whose unit cost falls with
    thickness the interpolated cost falls inside the range.  On a valid
    table whose unit costs do not decrease, the value at the tabulated
    thickness 8 is rounded above the value at 8.5.  On a table sorted
    by thickness in which a thickness is repeated, the value jumps from
    10 to more than 20 between 5 and the next double. *)
Lemma interpolation_is_not_monotone :
  (let table := [Double.mkSlabCost 5 20; Double.mkSlabCost 10 10] in
   Double.orderedThickness table = true /\
   Double.finiteNonnegative table = true /\
   Double.slabBaseCost 20 6 table = inr 18%float /\
   Double.slabBaseCost 20 9 table = inr 12%float /\
   (6 <=? 9)%float = true /\ (18 <=? 12)%float = false) /\
  (let table := [Double.mkSlabCost 4 6.1; Double.mkSlabCost 8 29.2;
                 Double.mkSlabCost 12 29.2] in
   Double.orderedThickness table = true /\
   Double.finiteNonnegative table = true /\
   Double.slabBaseCost 20 8 table = inr 29.200000000000003%float /\
   Double.slabBaseCost 20 8.5 table = inr 29.2%float /\
   (8 <=? 8.5)%float = true /\ (29.200000000000003 <=? 29.2)%float = false) /\
  (let table := [Double.mkSlabCost 5 10; Double.mkSlabCost 5 20;
                 Double.mkSlabCost 10 30] in
   Double.orderedThickness table = true /\
   Double.finiteNonnegative table = true /\
   Double.slabBaseCost 20 5 table = inr 10%float /\
   exists c, Double.slabBaseCost 20 (next_up 5) table = inr c /\
             (20 <=? c)%float = true).
Proof.
  cbv zeta. split; [|split].
  - repeat split; vm_compute; reflexivity.
  - repeat split; vm_compute; reflexivity.
  - split; [reflexivity|]. split; [reflexivity|]. split; [reflexivity|].
    eexists. split; vm_compute; reflexivity.
Qed.

(** C7, as amended.  On a non-empty table ordered by thickness the
    block returns the first unit cost for a thickness at or below the
    first tabulated one, the last unit cost for a thickness above the
    first and at or above the last tabulated one, and, for a thickness
    strictly between the two, the linear interpolation, in double
    precision, between two consecutive points that bracket it. *)
Theorem interpolated_slab_cost_curve
  (default t : float) (first : Double.SlabCost) (rest : list Double.SlabCost) :
  let table := first :: rest in
  let final := last table first in
  Double.orderedThickness table = true ->
  ((t <=? Double.thickness first)%float = true ->
   Double.slabBaseCost default t table = inr (Double.costPerSf first)) /\
  ((Double.thickness first <? t)%float = true ->
   (Double.thickness final <=? t)%float = true ->
   Double.slabBaseCost default t table = inr (Double.costPerSf final)) /\
  ((Double.thickness first <? t)%float = true ->
   (t <? Double.thickness final)%float = true ->
   exists before p1 p2 after,
     table = before ++ p1 :: p2 :: after /\
     (Double.thickness p1 <=? t)%float = true /\
     (t <=? Double.thickness p2)%float = true /\
     Double.slabBaseCost default t table = inr (Double.interpolate p1 p2 t)).
Proof.
  cbv zeta. intros Hord. split; [|split].
  - intro H. unfold Double.slabBaseCost. rewrite H. reflexivity.
  - intros H1 H2. apply double_ltb_leb in H1. destruct H1 as [_ H1].
    unfold Double.slabBaseCost. rewrite H1, H2. reflexivity.
  - intros H1 H2. apply double_ltb_leb in H1. destruct H1 as [H1 H1'].
    apply double_ltb_leb in H2. destruct H2 as [_ H2].
    destruct (bracket_found t rest first Hord H1 H2)
      as (before & p1 & p2 & after & Eq & Hp1 & Hp2 & Hb).
    exists before, p1, p2, after.
    split; [exact Eq|]. split; [exact Hp1|]. split; [exact Hp2|].
    unfold Double.slabBaseCost. rewrite H1', H2, Hb. reflexivity.
Qed.

Lemma interpolated_slab_cost_curve_witness :
  Double.slabBaseCost 20 2 Double.formTable = inr 10.50%float /\
  Double.slabBaseCost 20 12 Double.formTable = inr 22.50%float /\
  exists p1 p2,
    Double.slabBaseCost 20 4.5 Double.formTable
    = inr (Double.interpolate p1 p2 4.5).
Proof.
  destruct (interpolated_slab_cost_curve 20 2 (Double.mkSlabCost 3 10.50)
              (tl Double.formTable) eq_refl) as (Hlow & _ & _).
  destruct (interpolated_slab_cost_curve 20 12 (Double.mkSlabCost 3 10.50)
              (tl Double.formTable) eq_refl) as (_ & Hhigh & _).
  destruct (interpolated_slab_cost_curve 20 4.5 (Double.mkSlabCost 3 10.50)
              (tl Double.formTable) eq_refl) as (_ & _ & Hmid).
  split; [exact (Hlow eq_refl)|]. split; [exact (Hhigh eq_refl eq_refl)|].
  destruct (Hmid eq_refl eq_refl) as (before & p1 & p2 & after & _ & _ & _ & E).
  exists p1, p2. exact E.
Defined.

(** ** Loops *)

Lemma steps_lower_bound n : forall x0 step x,
  0 <= step -> In x (steps n x0 step) -> x0 <= x.
Proof.
  induction n as [|n IH]; intros x0 step x Hs Hin; [contradiction|].
  change (steps (S n) x0 step)
    with (x0 :: steps n (Qred (x0 + step)) step) in Hin.
  destruct Hin as [<-|Hin]; [lra|].
  apply IH in Hin; [|exact Hs].
  pose proof (Qred_correct (x0 + step)) as E.
  remember (Qred (x0 + step)) as y. lra.
Qed.

Lemma forRange_bounds start stop step x :
  0 <= step -> In x (forRange start stop step) -> start <= x.
Proof.
  unfold forRange. intros Hs Hin.
  destruct (leb start stop); [|contradiction].
  eapply steps_lower_bound; eassumption.
Qed.

Section ForEach.

Context {X : Type}.
Variable body : X -> SearchState -> SearchState.

Lemma forEach_cons x l s :
  forEach (x :: l) body s
  = forEach l body (match thrown s with Some _ => s | None => body x s end).
Proof. reflexivity. Qed.

(** A property of the state that every iteration preserves holds when
    the loop ends. *)
Lemma forEach_invariant (Inv : SearchState -> Prop) (l : list X) :
  (forall x s, In x l -> Inv s -> thrown s = None -> Inv (body x s)) ->
  forall s, Inv s -> Inv (forEach l body s).
Proof.
  induction l as [|x l IH]; intros Hbody s Hs; [exact Hs|].
  rewrite forEach_cons. apply IH.
  - intros y s' Hy. apply Hbody. right. exact Hy.
  - destruct (thrown s) eqn:E; [exact Hs|].
    apply Hbody; [left; reflexivity | exact Hs | exact E].
Qed.

(** A property that one iteration establishes and the others keep,
    under an invariant that excludes exceptions, holds when the loop
    ends. *)
Lemma forEach_reaches (Inv F : SearchState -> Prop) (l : list X) (x : X) :
  In x l ->
  (forall s, Inv s -> thrown s = None) ->
  (forall y s, In y l -> Inv s -> Inv (body y s)) ->
  (forall y s, In y l -> Inv s -> F s -> F (body y s)) ->
  (forall s, Inv s -> F (body x s)) ->
  forall s, Inv s -> F (forEach l body s).
Proof.
  intros Hin Hno. induction l as [|y l IH]; intros HInv HF Hx s Hs;
    [contradiction|].
  rewrite forEach_cons. rewrite (Hno s Hs).
  assert (Hs' : Inv (body y s)) by (apply HInv; [left; reflexivity | exact Hs]).
  destruct Hin as [->|Hin].
  - assert (HFx : F (body x s)) by (apply Hx; exact Hs).
    apply (forEach_invariant (fun s => Inv s /\ F s) l).
    + intros z s' Hz [Hi Hf] _. split.
      * apply HInv; [right; exact Hz | exact Hi].
      * apply HF; [right; exact Hz | exact Hi | exact Hf].
    + split; assumption.
  - apply IH; try assumption.
    + intros z s' Hz. apply HInv. right. exact Hz.
    + intros z s' Hz. apply HF. right. exact Hz.
Qed.

End ForEach.

(** ** One step of a search *)

Lemma step_bestSatisfies (P : DesignResult -> Prop) s r :
  bestSatisfies P s -> (forall d, r = Costed d -> P d) ->
  bestSatisfies P (step s r).
Proof.
  intros Hs Hr. destruct r as [why|e|d]; simpl; [exact Hs|exact Hs|].
  unfold retain.
  destruct (match minCost s with Some m => ltb (totalCost d) m | None => true end);
    intros d' Hd'; simpl in Hd'.
  - injection Hd' as <-. apply Hr. reflexivity.
  - apply Hs. exact Hd'.
Qed.

Lemma step_array s r :
  slabCostsArray (step s r) = slabCostsArray s \/
  slabCostsArray (step s r) = sortByThickness (slabCostsArray s).
Proof.
  destruct r as [why|e|d]; simpl; [left; reflexivity | right; reflexivity |].
  unfold retain.
  destruct (match minCost s with Some m => ltb (totalCost d) m | None => true end);
    right; reflexivity.
Qed.

Lemma step_thrown s r :
  thrown (step s r) = match r with Threw e => Some e | _ => thrown s end
  \/ (exists d, r = Costed d /\ thrown (step s r) = None).
Proof.
  destruct r as [why|e|d]; simpl; [left; reflexivity | left; reflexivity |].
  right. exists d. split; [reflexivity|]. unfold retain.
  destruct (match minCost s with Some m => ltb (totalCost d) m | None => true end);
    reflexivity.
Qed.

Lemma slabBaseCost_nonempty default t l :
  l <> [] -> exists c, slabBaseCost default t l = inr c.
Proof.
  destruct l as [|p l]; [congruence|]. intros _. unfold slabBaseCost.
  destruct (leb t (thickness p)); [eexists; reflexivity|].
  destruct (geb t _); eexists; reflexivity.
Qed.

Lemma step_tame input s r :
  input <> [] -> tame input s ->
  (forall e, r <> Threw e) -> tame input (step s r).
Proof.
  intros Hne (Hno & Harr & Hmin) Hr.
  destruct r as [why|e|d]; simpl.
  - repeat split; assumption.
  - exfalso. apply (Hr e). reflexivity.
  - unfold retain.
    assert (Hs : sortByThickness (slabCostsArray s) = sortByThickness input).
    { destruct Harr as [->| ->]; [reflexivity | apply sortByThickness_idempotent]. }
    destruct (match minCost s with Some m => ltb (totalCost d) m | None => true end);
      simpl; (split; [reflexivity | split; [right; exact Hs|]]).
    + discriminate.
    + exact Hmin.
Qed.

Lemma tame_nonempty input s :
  input <> [] -> tame input s -> sortByThickness (slabCostsArray s) <> [].
Proof.
  intros Hne (_ & [E|E] & _); rewrite E.
  - apply sortByThickness_nonempty, Hne.
  - apply sortByThickness_nonempty, sortByThickness_nonempty, Hne.
Qed.

Lemma initial_tame cp : tame (ptSlabCosts cp) (initialState cp).
Proof. split; [reflexivity | split; [left; reflexivity | reflexivity]]. Qed.

(** ** optimizeFlatPlate: structure *)

Section FlatPlateSearch.

Variable sqrt : Q -> Q.
Variables bayLength bayWidth : Q.
Variable costParams : CostParameters.

Local Abbreviation point := (FlatPlate.point sqrt bayLength bayWidth costParams).
Local Abbreviation design := (FlatPlate.design sqrt bayLength bayWidth costParams).

(** A costed candidate passed the average-prestress check and carries
    the design literal built from the cost found in the table. *)
Lemma flatPlate_costed fc t br er arr d :
  point fc t br er arr = Costed d ->
  175 <= FlatPlate.avgPrestress bayLength fc t br er /\
  exists baseCost, slabBaseCost 20 t arr = inr baseCost /\
                   d = design fc t br er baseCost.
Proof.
  unfold FlatPlate.point.
  destruct (FlatPlate.stressScreening _ _ _ _ _ _); [discriminate|].
  destruct (ltb (FlatPlate.avgPrestress bayLength fc t br er) 175) eqn:Ea;
    [discriminate|].
  apply ltb_false in Ea.
  destruct (FlatPlate.phi _ _ _ _ _); [|discriminate].
  cbv zeta.
  repeat (match goal with
          | |- context [if ?b then Rejected _ else _] => destruct b; [discriminate|]
          end).
  destruct (slabBaseCost 20 t arr) as [e|baseCost]; [discriminate|].
  intro H. injection H as <-. split; [exact Ea|].
  exists baseCost. split; reflexivity.
Qed.

Lemma flatPlate_no_throw fc t br er arr :
  arr <> [] -> forall e, point fc t br er arr <> Threw e.
Proof.
  intros Hne e. unfold FlatPlate.point.
  destruct (FlatPlate.stressScreening _ _ _ _ _ _); [discriminate|].
  destruct (ltb _ 175); [discriminate|].
  destruct (FlatPlate.phi _ _ _ _ _); [|discriminate].
  cbv zeta.
  repeat (match goal with
          | |- context [if ?b then Rejected _ else _] => destruct b; [discriminate|]
          end).
  destruct (slabBaseCost_nonempty 20 t arr Hne) as [c ->]. discriminate.
Qed.

(** Whether a candidate reaches the cost block does not depend on the
    cost table. *)
Lemma flatPlate_costed_any fc t br er arr d arr' :
  point fc t br er arr = Costed d -> arr' <> [] ->
  exists d', point fc t br er arr' = Costed d'.
Proof.
  unfold FlatPlate.point. intros H Hne.
  destruct (FlatPlate.stressScreening _ _ _ _ _ _); [discriminate|].
  destruct (ltb _ 175); [discriminate|].
  destruct (FlatPlate.phi _ _ _ _ _); [|discriminate].
  cbv zeta in *.
  repeat (match goal with
          | H : context [if ?b then Rejected _ else _] |- _ =>
              destruct b; [discriminate|]
          end).
  destruct (slabBaseCost_nonempty 20 t arr' Hne) as [c ->].
  eexists. reflexivity.
Qed.

Section Invariant.

Variable Inv : SearchState -> Prop.
Hypothesis Hstep : forall fc t br er s,
  flatPlateGrid bayLength fc t br er -> Inv s -> thrown s = None ->
  Inv (step s (point fc t br er (sortByThickness (slabCostsArray s)))).

Lemma flatPlate_thicknessBody_invariant fc t s :
  In fc concreteStrengths -> strengthSkipped bayLength fc = false ->
  In t (FlatPlate.thicknesses bayLength) ->
  Inv s ->
  Inv (FlatPlate.thicknessBody sqrt bayLength bayWidth costParams fc t s).
Proof.
  intros Hfc Hsk Ht Hs. unfold FlatPlate.thicknessBody.
  destruct (ltb (FlatPlate.emax fc t) 1.0) eqn:Ee; [exact Hs|].
  apply ltb_false in Ee.
  apply forEach_invariant; [|exact Hs]. intros br s1 Hbr Hs1 _.
  apply forEach_invariant; [|exact Hs1]. intros er s2 Her Hs2 Hno.
  apply Hstep; [|exact Hs2|exact Hno].
  repeat split; assumption.
Qed.

Lemma flatPlate_strengthBody_invariant fc s :
  In fc concreteStrengths -> Inv s ->
  Inv (FlatPlate.strengthBody sqrt bayLength bayWidth costParams fc s).
Proof.
  intros Hfc Hs. unfold FlatPlate.strengthBody.
  destruct (strengthSkipped bayLength fc) eqn:Hsk; [exact Hs|].
  apply forEach_invariant; [|exact Hs]. intros t s1 Ht Hs1 _.
  apply flatPlate_thicknessBody_invariant; assumption.
Qed.

Lemma flatPlate_run_invariant :
  Inv (initialState costParams) ->
  Inv (FlatPlate.run sqrt bayLength bayWidth costParams).
Proof.
  intro H0. unfold FlatPlate.run.
  apply forEach_invariant; [|exact H0]. intros fc s Hfc Hs _.
  apply flatPlate_strengthBody_invariant; assumption.
Qed.

End Invariant.

End FlatPlateSearch.


Section FlatPlateReach.

Variable sqrt : Q -> Q.
Variables bayLength bayWidth : Q.
Variable costParams : CostParameters.
Hypothesis table_nonempty : ptSlabCosts costParams <> [].

Local Abbreviation point := (FlatPlate.point sqrt bayLength bayWidth costParams).
Local Abbreviation input := (ptSlabCosts costParams).

Lemma flatPlate_step_tame fc t br er s :
  tame input s ->
  tame input (step s (point fc t br er (sortByThickness (slabCostsArray s)))).
Proof.
  intro Hs. apply step_tame; [exact table_nonempty | exact Hs |].
  apply flatPlate_no_throw. apply (tame_nonempty input); assumption.
Qed.

(** With a non-empty cost table the search does not raise and leaves
    the array as passed or sorted. *)
Lemma flatPlate_run_tame :
  tame input (FlatPlate.run sqrt bayLength bayWidth costParams).
Proof.
  apply flatPlate_run_invariant; [|apply initial_tame].
  intros fc t br er s _ Hs _. apply flatPlate_step_tame, Hs.
Qed.

Section Reach.

Variable F : SearchState -> Prop.
Hypothesis F_kept : forall s r,
  tame input s -> (forall e, r <> Threw e) -> F s -> F (step s r).
Hypothesis F_set : forall s d, tame input s -> F (step s (Costed d)).

Variables fc t br er : Q.
Variable arr0 : list SlabCost.
Variable d0 : DesignResult.
Hypothesis in_grid : flatPlateGrid bayLength fc t br er.
Hypothesis costed : point fc t br er arr0 = Costed d0.

Local Abbreviation TF := (fun s : SearchState => tame input s /\ F s).

Lemma flatPlate_step_TF fc' t' br' er' s :
  TF s ->
  TF (step s (point fc' t' br' er' (sortByThickness (slabCostsArray s)))).
Proof.
  intros [Hs HF]. split; [apply flatPlate_step_tame, Hs|].
  apply F_kept; [exact Hs | | exact HF].
  apply flatPlate_no_throw. apply (tame_nonempty input); assumption.
Qed.

(** A grid point that reaches the cost block establishes [F], and the
    rest of the search keeps it. *)
Lemma flatPlate_reaches : F (FlatPlate.run sqrt bayLength bayWidth costParams).
Proof.
  destruct in_grid as (Hfc & Hsk & Ht & He & Hbr & Her).
  unfold FlatPlate.run.
  apply (forEach_reaches _ (tame input) F concreteStrengths fc Hfc).
  - intros s Hs. apply Hs.
  - intros y s Hy Hs. apply flatPlate_strengthBody_invariant; try assumption.
    intros; apply flatPlate_step_tame; assumption.
  - intros y s Hy Hs HF.
    apply (flatPlate_strengthBody_invariant sqrt bayLength bayWidth costParams TF);
      [|exact Hy|split; assumption].
    intros; apply flatPlate_step_TF; assumption.
  - intros s Hs. unfold FlatPlate.strengthBody. rewrite Hsk.
    apply (forEach_reaches _ (tame input) F _ t Ht).
    + intros s' Hs'. apply Hs'.
    + intros y s' Hy Hs'.
      apply flatPlate_thicknessBody_invariant; try assumption.
      intros; apply flatPlate_step_tame; assumption.
    + intros y s' Hy Hs' HF.
      apply (flatPlate_thicknessBody_invariant sqrt bayLength bayWidth
               costParams TF); try assumption; [|split; assumption].
      intros; apply flatPlate_step_TF; assumption.
    + intros s' Hs'. unfold FlatPlate.thicknessBody.
      assert (Ee : ltb (FlatPlate.emax fc t) 1.0 = false)
        by (apply ltb_false; exact He).
      rewrite Ee.
      apply (forEach_reaches _ (tame input) F _ br Hbr).
      * intros s1 Hs1. apply Hs1.
      * intros y s1 Hy Hs1.
        apply forEach_invariant; [|exact Hs1].
        intros; apply flatPlate_step_tame; assumption.
      * intros y s1 Hy Hs1 HF.
        apply (forEach_invariant _ TF); [|split; assumption].
        intros; apply flatPlate_step_TF; assumption.
      * intros s1 Hs1.
        apply (forEach_reaches _ (tame input) F _ er Her).
        -- intros s2 Hs2. apply Hs2.
        -- intros y s2 Hy Hs2. apply flatPlate_step_tame, Hs2.
        -- intros y s2 Hy Hs2 HF. apply flatPlate_step_TF. split; assumption.
        -- intros s2 Hs2.
           destruct (flatPlate_costed_any sqrt bayLength bayWidth costParams
                       fc t br er arr0 d0
                       (sortByThickness (slabCostsArray s2)) costed)
             as [d' Hd'].
           { apply (tame_nonempty input); assumption. }
           rewrite Hd'. apply F_set, Hs2.
        -- exact Hs1.
      * exact Hs'.
    + exact Hs.
  - apply initial_tame.
Qed.

End Reach.

(** A grid point that reaches the cost block makes the search return a
    design. *)
Lemma flatPlate_returns fc t br er arr0 d0 :
  flatPlateGrid bayLength fc t br er ->
  point fc t br er arr0 = Costed d0 ->
  exists d, optimizeFlatPlate sqrt bayLength bayWidth costParams = inr (Some d).
Proof.
  intros Hgrid Hc.
  pose proof flatPlate_run_tame as [Hno _].
  assert (HF : bestDesign (FlatPlate.run sqrt bayLength bayWidth costParams) <> None).
  { apply (flatPlate_reaches (fun s => bestDesign s <> None))
      with (fc := fc) (t := t) (br := br) (er := er) (arr0 := arr0) (d0 := d0);
      try assumption.
    - intros s r _ _ HF. destruct r as [why|e|d]; simpl; try exact HF.
      unfold retain.
      destruct (match minCost s with Some m => ltb (totalCost d) m | None => true end);
        simpl; [discriminate | exact HF].
    - intros s d (_ & _ & Hmin). simpl. unfold retain.
      destruct (minCost s) eqn:Em.
      + destruct (ltb (totalCost d) q); simpl; [discriminate|].
        intro Hb. apply Hmin in Hb. discriminate.
      + simpl. discriminate. }
  unfold optimizeFlatPlate, searchResult. rewrite Hno.
  destruct (bestDesign _) as [d|]; [|congruence].
  exists d. reflexivity.
Qed.

(** A grid point that reaches the cost block leaves the caller's array
    sorted. *)
Lemma flatPlate_sorts fc t br er arr0 d0 :
  flatPlateGrid bayLength fc t br er ->
  point fc t br er arr0 = Costed d0 ->
  optimizeFlatPlate_array sqrt bayLength bayWidth costParams
  = sortByThickness input.
Proof.
  intros Hgrid Hc. unfold optimizeFlatPlate_array.
  apply (flatPlate_reaches (fun s => slabCostsArray s = sortByThickness input))
    with (fc := fc) (t := t) (br := br) (er := er) (arr0 := arr0) (d0 := d0);
    try assumption.
  - intros s r _ _ HF. destruct (step_array s r) as [E|E]; rewrite E.
    + exact HF.
    + rewrite HF. apply sortByThickness_idempotent.
  - intros s d (_ & Harr & _). simpl. unfold retain.
    assert (Hs : sortByThickness (slabCostsArray s) = sortByThickness input).
    { destruct Harr as [->| ->]; [reflexivity | apply sortByThickness_idempotent]. }
    destruct (match minCost s with Some m => ltb (totalCost d) m | None => true end);
      simpl; exact Hs.
Qed.

End FlatPlateReach.


(** ** The beam searches: structure *)

Lemma firstFound_some {X Y : Type} (f : X -> option Y) (l : list X) (y : Y) :
  firstFound f l = Some y -> exists x, In x l /\ f x = Some y.
Proof.
  induction l as [|x l IH]; simpl; [discriminate|].
  destruct (f x) as [y'|] eqn:E.
  - intro H. injection H as <-. exists x. split; [left; reflexivity | exact E].
  - intro H. destruct (IH H) as (x' & Hin & Hx'). exists x'.
    split; [right; exact Hin | exact Hx'].
Qed.

(** The prestress a search settles on comes from one of its trials. *)
Lemma searchPrestress_some {Y : Type} (trial : Q -> Q -> option Y)
  (balanceRatios eRatios : list Q) (y : Y) :
  searchPrestress trial balanceRatios eRatios = Some y ->
  exists br er, In br balanceRatios /\ In er eRatios /\ trial br er = Some y.
Proof.
  unfold searchPrestress. intro H.
  apply firstFound_some in H. destruct H as (br & Hbr & H).
  apply firstFound_some in H. destruct H as (er & Her & H).
  exists br, er. repeat split; assumption.
Qed.

Section OneWaySearch.

Variable sqrt : Q -> Q.
Variables bayLength bayWidth : Q.
Variable costParams : CostParameters.

Local Abbreviation point := (OneWayBeam.point sqrt bayLength bayWidth costParams).
Local Abbreviation design := (OneWayBeam.design sqrt bayLength bayWidth costParams).

Lemma oneWay_costed fc bd bw t arr d :
  point fc bd bw t arr = Costed d ->
  0.5 <= OneWayBeam.emax_slab fc t /\
  exists sp bp baseCost,
    OneWayBeam.findSlabPrestress sqrt bayWidth fc bw t = Some sp /\
    OneWayBeam.findBeamPrestress sqrt bayLength bayWidth fc bd bw t = Some bp /\
    slabBaseCost 15 t arr = inr baseCost /\
    d = design fc bd bw t sp bp baseCost.
Proof.
  unfold OneWayBeam.point.
  destruct (ltb (OneWayBeam.emax_slab fc t) 0.5) eqn:Ee; [discriminate|].
  apply ltb_false in Ee.
  destruct (OneWayBeam.findSlabPrestress _ _ _ _ _) as [sp|]; [|discriminate].
  destruct (OneWayBeam.findBeamPrestress _ _ _ _ _ _ _) as [bp|]; [|discriminate].
  unfold OneWayBeam.evaluate.
  repeat (match goal with
          | |- context [if ?b then Rejected _ else _] => destruct b; [discriminate|]
          end).
  destruct (slabBaseCost 15 t arr) as [e|baseCost]; [discriminate|].
  intro H. injection H as <-. split; [exact Ee|].
  exists sp, bp, baseCost. repeat split; reflexivity.
Qed.


Section Invariant.

Variable Inv : SearchState -> Prop.
Hypothesis Hstep : forall fc bd bw t s,
  oneWayGrid bayLength bayWidth fc bd bw t -> Inv s -> thrown s = None ->
  Inv (step s (point fc bd bw t (sortByThickness (slabCostsArray s)))).

Lemma oneWay_run_invariant :
  Inv (initialState costParams) ->
  Inv (OneWayBeam.run sqrt bayLength bayWidth costParams).
Proof.
  intro H0. unfold OneWayBeam.run.
  apply forEach_invariant; [|exact H0]. intros fc s Hfc Hs _.
  unfold OneWayBeam.strengthBody.
  destruct (strengthSkipped bayLength fc) eqn:Hsk; [exact Hs|].
  apply forEach_invariant; [|exact Hs]. intros bd s1 Hbd Hs1 _.
  unfold OneWayBeam.depthBody.
  apply forEach_invariant; [|exact Hs1]. intros bw s2 Hbw Hs2 _.
  unfold OneWayBeam.widthBody.
  apply forEach_invariant; [|exact Hs2]. intros t s3 Ht Hs3 Hno.
  apply Hstep; [|exact Hs3|exact Hno].
  repeat split; assumption.
Qed.

End Invariant.


End OneWaySearch.

Section TwoWaySearch.

Variable sqrt : Q -> Q.
Variables bayLength bayWidth : Q.
Variable costParams : CostParameters.

Local Abbreviation point := (TwoWayBeam.point sqrt bayLength bayWidth costParams).
Local Abbreviation design := (TwoWayBeam.design sqrt bayLength bayWidth costParams).

Lemma twoWay_costed fc bd bw t arr d :
  point fc bd bw t arr = Costed d ->
  0.5 <= TwoWayBeam.emax_slab fc t /\
  exists sp bp baseCost,
    TwoWayBeam.findSlabPrestress sqrt bayLength bayWidth fc bw t = Some sp /\
    TwoWayBeam.findBeamPrestress sqrt bayLength bayWidth fc bd bw t = Some bp /\
    slabBaseCost 12 t arr = inr baseCost /\
    d = design fc bd bw t sp bp baseCost.
Proof.
  unfold TwoWayBeam.point.
  destruct (ltb (TwoWayBeam.emax_slab fc t) 0.5) eqn:Ee; [discriminate|].
  apply ltb_false in Ee.
  destruct (TwoWayBeam.findSlabPrestress _ _ _ _ _ _) as [sp|]; [|discriminate].
  destruct (TwoWayBeam.findBeamPrestress _ _ _ _ _ _ _) as [bp|]; [|discriminate].
  unfold TwoWayBeam.evaluate.
  repeat (match goal with
          | |- context [if ?b then Rejected _ else _] => destruct b; [discriminate|]
          end).
  destruct (slabBaseCost 12 t arr) as [e|baseCost]; [discriminate|].
  intro H. injection H as <-. split; [exact Ee|].
  exists sp, bp, baseCost. repeat split; reflexivity.
Qed.


Section Invariant.

Variable Inv : SearchState -> Prop.
Hypothesis Hstep : forall fc bd bw t s,
  twoWayGrid bayLength bayWidth fc bd bw t -> Inv s -> thrown s = None ->
  Inv (step s (point fc bd bw t (sortByThickness (slabCostsArray s)))).

Lemma twoWay_run_invariant :
  Inv (initialState costParams) ->
  Inv (TwoWayBeam.run sqrt bayLength bayWidth costParams).
Proof.
  intro H0. unfold TwoWayBeam.run.
  apply forEach_invariant; [|exact H0]. intros fc s Hfc Hs _.
  unfold TwoWayBeam.strengthBody.
  destruct (strengthSkipped bayLength fc) eqn:Hsk; [exact Hs|].
  apply forEach_invariant; [|exact Hs]. intros bd s1 Hbd Hs1 _.
  unfold TwoWayBeam.depthBody.
  apply forEach_invariant; [|exact Hs1]. intros bw s2 Hbw Hs2 _.
  unfold TwoWayBeam.widthBody.
  apply forEach_invariant; [|exact Hs2]. intros t s3 Ht Hs3 Hno.
  apply Hstep; [|exact Hs3|exact Hno].
  repeat split; assumption.
Qed.

End Invariant.


End TwoWaySearch.

(** ** C3 *)

Lemma flatPlate_best_checks sqrt bayLength bayWidth costParams :
  bestSatisfies (fun d => all_checks_true (checks d))
    (FlatPlate.run sqrt bayLength bayWidth costParams).
Proof.
  apply flatPlate_run_invariant; [|intros d H; discriminate H].
  intros fc t br er s _ Hs _. apply step_bestSatisfies; [exact Hs|].
  intros d Hd. apply flatPlate_costed in Hd.
  destruct Hd as (_ & baseCost & _ & ->). repeat split.
Qed.

Lemma oneWay_best_checks sqrt bayLength bayWidth costParams :
  bestSatisfies (fun d => all_checks_true (checks d))
    (OneWayBeam.run sqrt bayLength bayWidth costParams).
Proof.
  apply oneWay_run_invariant; [|intros d H; discriminate H].
  intros fc bd bw t s _ Hs _. apply step_bestSatisfies; [exact Hs|].
  intros d Hd. apply oneWay_costed in Hd.
  destruct Hd as (_ & sp & bp & baseCost & _ & _ & _ & ->). repeat split.
Qed.

Lemma twoWay_best_checks sqrt bayLength bayWidth costParams :
  bestSatisfies (fun d => all_checks_true (checks d))
    (TwoWayBeam.run sqrt bayLength bayWidth costParams).
Proof.
  apply twoWay_run_invariant; [|intros d H; discriminate H].
  intros fc bd bw t s _ Hs _. apply step_bestSatisfies; [exact Hs|].
  intros d Hd. apply twoWay_costed in Hd.
  destruct Hd as (_ & sp & bp & baseCost & _ & _ & _ & ->). repeat split.
Qed.

Lemma searchResult_some s d : searchResult s = inr (Some d) -> bestDesign s = Some d.
Proof.
  unfold searchResult. destruct (thrown s); [discriminate|].
  intro H. injection H as H. exact H.
Qed.

Lemma optimizeFlatPlate_some sqrt bayLength bayWidth costParams d :
  optimizeFlatPlate sqrt bayLength bayWidth costParams = inr (Some d) ->
  bestDesign (FlatPlate.run sqrt bayLength bayWidth costParams) = Some d.
Proof. apply searchResult_some. Qed.

Lemma optimizeOneWayBeam_some sqrt bayLength bayWidth userBeamDepth costParams d :
  optimizeOneWayBeam sqrt bayLength bayWidth userBeamDepth costParams
  = inr (Some d) ->
  bestDesign (OneWayBeam.run sqrt bayLength bayWidth costParams) = Some d.
Proof. apply searchResult_some. Qed.

Lemma optimizeTwoWayBeam_some sqrt bayLength bayWidth userBeamDepth costParams d :
  optimizeTwoWayBeam sqrt bayLength bayWidth userBeamDepth costParams
  = inr (Some d) ->
  bestDesign (TwoWayBeam.run sqrt bayLength bayWidth costParams) = Some d.
Proof. apply searchResult_some. Qed.

(** C3.  A design returned by any of the three searches has every
    boolean of its [checks] map set to [true]. *)
Theorem returned_design_passes_all_checks
  (sqrt : Q -> Q) (bayLength bayWidth userBeamDepth : Q)
  (costParams : CostParameters) (d : DesignResult) :
  optimizeFlatPlate sqrt bayLength bayWidth costParams = inr (Some d) \/
  optimizeOneWayBeam sqrt bayLength bayWidth userBeamDepth costParams = inr (Some d) \/
  optimizeTwoWayBeam sqrt bayLength bayWidth userBeamDepth costParams = inr (Some d) ->
  all_checks_true (checks d).
Proof.
  intros [H|[H|H]];
    [apply optimizeFlatPlate_some in H | apply optimizeOneWayBeam_some in H
     | apply optimizeTwoWayBeam_some in H].
  - exact (flatPlate_best_checks sqrt bayLength bayWidth costParams d H).
  - exact (oneWay_best_checks sqrt bayLength bayWidth costParams d H).
  - exact (twoWay_best_checks sqrt bayLength bayWidth costParams d H).
Qed.

(** The grid point [fc = 7000], [thickness = 8], [balanceRatio = 0.6],
    [eRatio = 0.6] of an 18 ft bay reaches the cost block. *)
Lemma sample_point_in_grid : flatPlateGrid 18 7000 8 0.6 0.6.
Proof.
  unfold flatPlateGrid.
  split; [simpl; tauto|].
  split; [vm_compute; reflexivity|].
  split; [vm_compute; tauto|].
  split; [apply Qle_bool_iff; vm_compute; reflexivity|].
  split; left; reflexivity.
Qed.

Lemma sample_point_costed (bayWidth : Q) (costParams : CostParameters) :
  exists d, FlatPlate.point Qsqrt 18 bayWidth costParams 7000 8 0.6 0.6 formTable
            = Costed d.
Proof.
  unfold FlatPlate.point.
  assert (E1 : FlatPlate.stressScreening Qsqrt 18 7000 8 0.6 0.6 = None)
    by (vm_compute; reflexivity).
  rewrite E1.
  assert (E2 : ltb (FlatPlate.avgPrestress 18 7000 8 0.6 0.6) 175 = false)
    by (vm_compute; reflexivity).
  rewrite E2.
  assert (E3 : FlatPlate.phi 18 7000 8 0.6 0.6 = Some 0.9)
    by (vm_compute; reflexivity).
  rewrite E3. cbv zeta.
  assert (E4 : gtb (FlatPlate.Mt 18 8) (0.9 * FlatPlate.Mn 18 7000 8 0.6 0.6) = false)
    by (vm_compute; reflexivity).
  rewrite E4.
  assert (E5 : gtb (FlatPlate.netDeflection Qsqrt 18 7000 8 0.6 0.6)
                 (FlatPlate.deflectionLimit 18) = false)
    by (vm_compute; reflexivity).
  rewrite E5.
  assert (E6 : ltb (FlatPlate.frequency Qsqrt 18 7000 8) 5.0 = false)
    by (vm_compute; reflexivity).
  rewrite E6.
  assert (E7 : gtb (FlatPlate.vu 8) (FlatPlate.vcDesign Qsqrt 18 7000 8 0.6 0.6) = false)
    by (vm_compute; reflexivity).
  rewrite E7.
  destruct (slabBaseCost_nonempty 20 8 formTable ltac:(discriminate)) as [c ->].
  eexists. reflexivity.
Qed.

Lemma returned_design_passes_all_checks_witness :
  exists d,
    optimizeFlatPlate Qsqrt 18 30 formCostParameters = inr (Some d) /\
    all_checks_true (checks d).
Proof.
  destruct (sample_point_costed 30 formCostParameters) as [d0 Hd0].
  destruct (flatPlate_returns Qsqrt 18 30 formCostParameters
              ltac:(discriminate) 7000 8 0.6 0.6 formTable d0
              sample_point_in_grid Hd0) as [d Hd].
  exists d. split; [exact Hd|].
  exact (returned_design_passes_all_checks Qsqrt 18 30 12 formCostParameters d
           (or_introl Hd)).
Defined.


(** ** Signs of the cost terms *)

Lemma Qdiv_nonneg (a b : Q) : 0 <= a -> 0 <= b -> 0 <= a / b.
Proof.
  intros Ha Hb. unfold Qdiv. apply Qmult_le_0_compat; [exact Ha|].
  apply Qinv_le_0_compat. exact Hb.
Qed.

Lemma Qplus_nonneg (a b : Q) : 0 <= a -> 0 <= b -> 0 <= a + b.
Proof. intros. lra. Qed.

Lemma Qdiv_lower_bound (a b c : Q) : 0 < b -> c <= a / b -> c * b <= a.
Proof.
  intros Hb H.
  assert (E : a == a / b * b) by (field; lra).
  rewrite E. apply Qmult_le_compat_r; lra.
Qed.

Lemma ceil_nonneg (x : Q) : 0 <= x -> 0 <= ceil x.
Proof. intro H. unfold ceil. pose proof (Qle_ceiling x). lra. Qed.

Lemma max3_ge_first (a b c : Q) : a <= max3 a b c.
Proof.
  unfold max3. eapply Qle_trans; [|apply Q.le_max_l]. apply Q.le_max_l.
Qed.

(** Goals [0 <= e] for [e] built from sums, products, quotients and
    [Math.ceil] of non-negative quantities. *)
Ltac nonneg :=
  repeat first
    [ assumption
    | lra
    | match goal with
      | |- 0 <= _ + _ => apply Qplus_nonneg
      | |- 0 <= _ * _ => apply Qmult_le_0_compat
      | |- 0 <= _ / _ => apply Qdiv_nonneg
      | |- 0 <= ceil _ => apply ceil_nonneg
      end ].

Lemma getConcreteBaseCost_ge_base (fc : Q) : 220 <= getConcreteBaseCost fc.
Proof.
  unfold getConcreteBaseCost. cbv zeta.
  destruct (leb fc 5000) eqn:E; [lra|]. apply leb_false in E.
  assert (H1 : 0 <= Qmin (fc - 5000) 7000 / 1000 * 15).
  { apply Qmult_le_0_compat; [|lra]. apply Qdiv_nonneg; [|lra].
    apply Q.min_glb; lra. }
  assert (H2 : 0 <= (if gtb fc 12000 then (fc - 12000) / 1000 * 26 else 0)).
  { destruct (gtb fc 12000) eqn:E2; [|lra]. apply gtb_true in E2.
    apply Qmult_le_0_compat; [|lra]. apply Qdiv_nonneg; lra. }
  lra.
Qed.

Lemma adjustSlabCostForStrength_nonneg baseCost t fc :
  0 <= baseCost -> 0 <= t -> 0 <= adjustSlabCostForStrength baseCost t fc.
Proof.
  intros Hb Ht. unfold adjustSlabCostForStrength. cbv zeta.
  pose proof (getConcreteBaseCost_ge_base fc) as Hfc.
  assert (E : getConcreteBaseCost 5000 == 220) by reflexivity.
  apply Qplus_nonneg; [exact Hb|].
  apply Qmult_le_0_compat; [|lra].
  apply Qdiv_nonneg; [|lra]. apply Qdiv_nonneg; lra.
Qed.

Lemma lossRatio_pos (fc : Q) : 0 < lossRatio fc.
Proof.
  unfold lossRatio.
  destruct (leb fc 5000); [reflexivity|].
  destruct (leb fc 7000); [reflexivity|].
  destruct (leb fc 10000); reflexivity.
Qed.

Lemma mildSteelCostOrDefault_nonneg (c : option Q) :
  (forall x, c = Some x -> 0 <= x) -> 0 <= mildSteelCostOrDefault c.
Proof.
  intro H. unfold mildSteelCostOrDefault. destruct c as [x|]; [|lra].
  destruct (Qeq_bool x 0); [lra|]. apply H. reflexivity.
Qed.

Lemma mildSteelCostOrDefault_pos (c : option Q) :
  (forall x, c = Some x -> 0 <= x) -> 0 < mildSteelCostOrDefault c.
Proof.
  intro H. unfold mildSteelCostOrDefault. destruct c as [x|]; [|reflexivity].
  destruct (Qeq_bool x 0) eqn:E; [reflexivity|].
  specialize (H x eq_refl).
  apply Qeq_bool_neq in E. apply Qle_lteq in H. destruct H as [H|H]; [exact H|].
  exfalso. apply E. symmetry. exact H.
Qed.

Lemma steel_governing_bound sqrt t span fc fy serviceStress Mcr d :
  0.0018 * t * 12
  <= Steel.governing (calculateTotalMildSteel sqrt t span fc fy serviceStress Mcr d).
Proof.
  unfold calculateTotalMildSteel. cbv zeta. cbn [Steel.governing].
  apply max3_ge_first.
Qed.


(** ** optimizeFlatPlate: the cost of a candidate *)

Section FlatPlateCost.

Variable sqrt : Q -> Q.
Hypothesis sqrt_nonneg : forall x, 0 <= sqrt x.
Variables bayLength bayWidth : Q.
Variable costParams : CostParameters.
Variables fc t br er baseCost : Q.

Hypothesis length_nonneg : 0 <= bayLength.
Hypothesis width_nonneg : 0 <= bayWidth.
Hypothesis formwork_nonneg : 0 <= ptFormworkCostPerSf costParams.
Hypothesis strand_nonneg : 0 <= ptStrandCostPerLb costParams.
Hypothesis steel_nonneg :
  forall x, mildSteelCostPerLb costParams = Some x -> 0 <= x.
Hypothesis baseCost_nonneg : 0 <= baseCost.
Hypothesis thickness_pos : 0 < t.
Hypothesis prestress_ok : 175 <= FlatPlate.avgPrestress bayLength fc t br er.

Lemma flatPlate_Pe_nonneg : 0 <= FlatPlate.Pe bayLength fc t br er.
Proof.
  unfold FlatPlate.avgPrestress in prestress_ok.
  change (Props.A (FlatPlate.props t)) with (t * 12) in prestress_ok.
  apply Qdiv_lower_bound in prestress_ok; [|lra].
  assert (0 <= 175 * (t * 12)) by (apply Qmult_le_0_compat; lra).
  lra.
Qed.

Lemma flatPlate_governing_pos :
  0 < Steel.governing (FlatPlate.steel sqrt bayLength fc t br er).
Proof.
  unfold FlatPlate.steel.
  eapply Qlt_le_trans; [|apply steel_governing_bound]. lra.
Qed.

Lemma flatPlate_rebarWeight_pos :
  0 < FlatPlate.rebarWeightPerSf sqrt bayLength fc t br er.
Proof.
  unfold FlatPlate.rebarWeightPerSf, FlatPlate.rebarWeightPerFt,
    FlatPlate.barsPerFoot.
  pose proof flatPlate_governing_pos as H.
  set (g := Steel.governing _) in *.
  assert (E : g / 0.20 * 0.668 / 1 == g * (334 # 100)) by field.
  rewrite E. lra.
Qed.

Lemma flatPlate_totalCost_nonneg :
  0 <= FlatPlate.totalCost sqrt bayLength bayWidth costParams fc t br er baseCost.
Proof.
  pose proof flatPlate_Pe_nonneg as HPe.
  pose proof (lossRatio_pos fc) as Hloss.
  pose proof flatPlate_rebarWeight_pos as Hrw.
  pose proof (mildSteelCostOrDefault_nonneg _ steel_nonneg) as Hms.
  assert (Harea : 0 <= FlatPlate.area bayLength bayWidth)
    by (unfold FlatPlate.area; nonneg).
  assert (Hslab : 0 <= FlatPlate.slabCost fc t baseCost)
    by (apply adjustSlabCostForStrength_nonneg; lra).
  assert (Hfpe : 0 <= FlatPlate.forcePerStrand fc).
  { unfold FlatPlate.forcePerStrand, FlatPlate.fpe, FlatPlate.strandArea. nonneg. }
  assert (Hn : 0 <= FlatPlate.numStrands bayLength bayWidth fc t br er).
  { unfold FlatPlate.numStrands, FlatPlate.totalPtForce. nonneg. }
  assert (Hlen : 0 <= FlatPlate.strandLength sqrt bayLength fc t er).
  { unfold FlatPlate.strandLength. apply Qmult_le_0_compat; [apply sqrt_nonneg | lra]. }
  unfold FlatPlate.totalCost, FlatPlate.concreteCost, FlatPlate.formworkCost,
    FlatPlate.ptCost, FlatPlate.strandWeight, FlatPlate.rebarCostPerSf.
  nonneg.
Qed.

End FlatPlateCost.


(** ** C5 *)

(** What every search guarantees about the caller's table: it comes
    back as passed or sorted. *)
Lemma flatPlate_array_frame sqrt bayLength bayWidth costParams :
  ptSlabCosts costParams <> [] ->
  optimizeFlatPlate_array sqrt bayLength bayWidth costParams = ptSlabCosts costParams \/
  optimizeFlatPlate_array sqrt bayLength bayWidth costParams
  = sortByThickness (ptSlabCosts costParams).
Proof.
  intro Hne. apply (flatPlate_run_tame sqrt bayLength bayWidth costParams Hne).
Qed.

(** C5.  Called on an 18 ft by 30 ft bay with the cost table in
    descending order, [optimizeFlatPlate] returns with the caller's
    array in ascending order: the input has been mutated. *)
Theorem flat_plate_sorts_the_callers_table :
  ptSlabCosts descendingCostParameters = rev formTable /\
  optimizeFlatPlate_array Qsqrt 18 30 descendingCostParameters = formTable /\
  rev formTable <> formTable.
Proof.
  split; [reflexivity|]. split; [|discriminate].
  destruct (sample_point_costed 30 descendingCostParameters) as [d0 Hd0].
  rewrite (flatPlate_sorts Qsqrt 18 30 descendingCostParameters
             ltac:(discriminate) 7000 8 0.6 0.6 formTable d0
             sample_point_in_grid Hd0).
  vm_compute. reflexivity.
Qed.

(** ** C10 *)

Lemma flatPlateGrid_thickness bayLength fc t br er :
  flatPlateGrid bayLength fc t br er -> 5 <= t.
Proof.
  intros (_ & _ & Ht & _). unfold FlatPlate.thicknesses in Ht.
  apply forRange_bounds in Ht; [|lra].
  unfold FlatPlate.minThickness in Ht.
  pose proof (Q.le_max_l 5 (ceil (bayLength * 12 / 50))). lra.
Qed.

Lemma flatPlate_best_steel_cost_pos sqrt bayLength bayWidth costParams :
  0 < bayLength -> 0 < bayWidth ->
  (forall x, mildSteelCostPerLb costParams = Some x -> 0 <= x) ->
  bestSatisfies (fun d => 0 < mildSteel (costBreakdown d))
    (FlatPlate.run sqrt bayLength bayWidth costParams).
Proof.
  intros HL HW Hms.
  apply flatPlate_run_invariant; [|intros d H; discriminate H].
  intros fc t br er s Hgrid Hs _. apply step_bestSatisfies; [exact Hs|].
  intros d Hd. apply flatPlate_costed in Hd.
  destruct Hd as (_ & baseCost & _ & ->).
  apply flatPlateGrid_thickness in Hgrid.
  cbn [costBreakdown FlatPlate.design mildSteel].
  unfold FlatPlate.area, FlatPlate.rebarCostPerSf.
  pose proof (flatPlate_rebarWeight_pos sqrt bayLength fc t br er
                ltac:(lra)) as Hw.
  pose proof (mildSteelCostOrDefault_pos _ Hms) as Hc.
  apply Qmult_lt_0_compat; apply Qmult_lt_0_compat; assumption.
Qed.

(** C10.  A mild-steel unit cost that is absent or 0 is replaced by
    1.20 in the rebar cost term of each of the three searches, and with
    a unit cost of exactly 0 the flat-plate search returns a design
    whose mild-steel cost is strictly positive. *)
Theorem zero_steel_cost_uses_the_fallback :
  (forall c : option Q,
      c = None \/ (exists x, c = Some x /\ x == 0) ->
      mildSteelCostOrDefault c = 1.20) /\
  (forall sqrt bayLength costParams fc t br er,
      FlatPlate.rebarCostPerSf sqrt bayLength costParams fc t br er
      = FlatPlate.rebarWeightPerSf sqrt bayLength fc t br er
        * mildSteelCostOrDefault (mildSteelCostPerLb costParams)) /\
  (forall sqrt bayLength bayWidth costParams fc bd bw t sp,
      OneWayBeam.rebarCost sqrt bayLength bayWidth costParams fc bd bw t sp
      = OneWayBeam.totalRebarWeight sqrt bayLength bayWidth fc bd bw t sp
        * mildSteelCostOrDefault (mildSteelCostPerLb costParams)) /\
  (forall sqrt bayLength bayWidth costParams fc bd bw t sp,
      TwoWayBeam.rebarCost sqrt bayLength bayWidth costParams fc bd bw t sp
      = TwoWayBeam.totalRebarWeight sqrt bayLength bayWidth fc bd bw t sp
        * mildSteelCostOrDefault (mildSteelCostPerLb costParams)) /\
  (mildSteelCostPerLb zeroSteelCostParameters = Some 0 /\
   exists d,
     optimizeFlatPlate Qsqrt 18 30 zeroSteelCostParameters = inr (Some d) /\
     0 < mildSteel (costBreakdown d)).
Proof.
  split.
  { intros c [->|(x & -> & Hx)]; [reflexivity|].
    unfold mildSteelCostOrDefault.
    apply Qeq_bool_iff in Hx. rewrite Hx. reflexivity. }
  split; [reflexivity|]. split; [reflexivity|]. split; [reflexivity|].
  split; [reflexivity|].
  destruct (sample_point_costed 30 zeroSteelCostParameters) as [d0 Hd0].
  destruct (flatPlate_returns Qsqrt 18 30 zeroSteelCostParameters
              ltac:(discriminate) 7000 8 0.6 0.6 formTable d0
              sample_point_in_grid Hd0) as [d Hd].
  exists d. split; [exact Hd|].
  apply optimizeFlatPlate_some in Hd.
  apply (flatPlate_best_steel_cost_pos Qsqrt 18 30 zeroSteelCostParameters);
    [reflexivity | reflexivity | | exact Hd].
  intros x Hx. injection Hx as <-. lra.
Qed.

Lemma zero_steel_cost_uses_the_fallback_witness :
  mildSteelCostOrDefault (Some 0) = 1.20.
Proof.
  apply (proj1 zero_steel_cost_uses_the_fallback).
  right. exists 0. split; reflexivity.
Defined.


(** ** The comparison table *)


Lemma withArray_twice cp a b : withArray (withArray cp a) b = withArray cp b.
Proof. reflexivity. Qed.






Section Comparisons.

Variable sqrt : Q -> Q.
Variables bayWidth beamDepth : Q.




End Comparisons.


(** ** C8 *)



(** The unit costs of a finite, non-negative cost table do not keep
    the interpolated base cost finite or non-negative in double
    precision: between 1.7e308 and 0 the product overflows to
    [-Infinity], and between 0.1 and 0 the value at 8.5 is rounded
    below zero. *)
Lemma interpolated_cost_below_zero :
  (let table := [Double.mkSlabCost 3 1.7e308; Double.mkSlabCost 13 0] in
   Double.orderedThickness table = true /\
   Double.finiteNonnegative table = true /\
   Double.slabBaseCost 20 8 table = inr neg_infinity) /\
  (let table := [Double.mkSlabCost 5.5 0.1; Double.mkSlabCost 8.5 0;
                 Double.mkSlabCost 12.5 0] in
   Double.orderedThickness table = true /\
   Double.finiteNonnegative table = true /\
   exists c, Double.slabBaseCost 20 8.5 table = inr c /\ (c <? 0)%float = true).
Proof.
  cbv zeta. split.
  - repeat split; vm_compute; reflexivity.
  - split; [reflexivity|]. split; [reflexivity|].
    eexists. split; vm_compute; reflexivity.
Qed.







